(** * MCP example server: capability listing, dispatch and tool backends

    A shallow embedding of [src/mcp_server.py], [src/utils/helpers.py],
    [src/tools/file_tools.py], [src/tools/data_tools.py],
    [src/tools/lm_studio_tools.py] and [src/tools/api_tools.py].

    Python values are JSON-like terms, dictionaries are association lists in
    insertion order, and a raised exception is a value of type [exn] carrying
    its class name and the text that [str(e)] yields.  Code that touches the
    outside world (file system, HTTP gateway) threads an explicit world. *)

From Stdlib Require Import List String Ascii Bool ZArith QArith Lia.
From Stdlib Require Import DecimalString.
Import ListNotations.
Local Open Scope string_scope.
Local Open Scope list_scope.
Set Warnings "-register-all".

(* ================================================================== *)
(** ** Python values and the operations the source applies to them *)
(* ================================================================== *)

Module Py.

(** JSON-like Python values.  [JObj] keeps the insertion order of a dict. *)
Inductive json : Type :=
| JNull : json
| JBool : bool -> json
| JInt : Z -> json
| JFloat : Q -> json
| JStr : string -> json
| JArr : list json -> json
| JObj : list (string * json) -> json.

Definition dict : Type := list (string * json).

(** A raised exception: an instance of a subclass of [Exception], as every
    [raise] of the repository produces and as [except Exception] catches.
    [exn_str] is what [str(e)] gives.  Exits that are not failures
    (cancellation, interpreter shutdown) are outside the model. *)
Record exn : Type := mk_exn { exn_class : string; exn_str : string }.

(** How a call ends: it returns a value or raises. *)
Inductive outcome (E A : Type) : Type :=
| Ok : A -> outcome E A
| Raise : E -> outcome E A.
Arguments Ok {E A} _.
Arguments Raise {E A} _.

Definition result : Type -> Type := outcome exn.

Definition rbind {E A B} (r : outcome E A) (k : A -> outcome E B)
  : outcome E B :=
  match r with
  | Ok a => k a
  | Raise e => Raise e
  end.

(** [repr] of a key that is a plain identifier, as in every subscript of the
    source: the key between single quotes. *)
Definition repr_key (k : string) : string := "'" ++ k ++ "'".

Definition KeyError (k : string) : exn := mk_exn "KeyError" (repr_key k).
Definition ValueError (m : string) : exn := mk_exn "ValueError" m.
Definition TypeError (m : string) : exn := mk_exn "TypeError" m.
Definition AttributeError (m : string) : exn := mk_exn "AttributeError" m.
Definition FileNotFoundError (m : string) : exn := mk_exn "FileNotFoundError" m.
Definition Exception (m : string) : exn := mk_exn "Exception" m.
Definition SyntaxError (m : string) : exn := mk_exn "SyntaxError" m.

Definition type_name (v : json) : string :=
  match v with
  | JNull => "NoneType"
  | JBool _ => "bool"
  | JInt _ => "int"
  | JFloat _ => "float"
  | JStr _ => "str"
  | JArr _ => "list"
  | JObj _ => "dict"
  end.

(** Truthiness, as tested by [if x:], [x and y], [x or y]. *)
Definition truthy (v : json) : bool :=
  match v with
  | JNull => false
  | JBool b => b
  | JInt z => negb (Z.eqb z 0)
  | JFloat q => negb (Qeq_bool q 0)
  | JStr s => negb (String.eqb s "")
  | JArr l => match l with [] => false | _ => true end
  | JObj d => match d with [] => false | _ => true end
  end.

(** *** Dictionaries *)

Fixpoint lookup (d : dict) (k : string) : option json :=
  match d with
  | [] => None
  | (k', v) :: d' => if String.eqb k' k then Some v else lookup d' k
  end.

(** [k in d] *)
Definition has_key (d : dict) (k : string) : bool :=
  match lookup d k with Some _ => true | None => false end.

(** [d[k]] on a dict *)
Definition getitem (d : dict) (k : string) : result json :=
  match lookup d k with
  | Some v => Ok v
  | None => Raise (KeyError k)
  end.

(** [d.get(k, default)] on a dict *)
Definition get (d : dict) (k : string) (default : json) : json :=
  match lookup d k with
  | Some v => v
  | None => default
  end.

(** [d[k] = v] on a dict: replaces in place or appends. *)
Fixpoint setitem (d : dict) (k : string) (v : json) : dict :=
  match d with
  | [] => [(k, v)]
  | (k', v') :: d' =>
      if String.eqb k' k then (k', v) :: d' else (k', v') :: setitem d' k v
  end.

(** *** The same operations on a value of unknown type *)

(** [v.get(k, default)] *)
Definition py_get (v : json) (k : string) (default : json) : result json :=
  match v with
  | JObj d => Ok (get d k default)
  | _ => Raise (AttributeError
                  ("'" ++ type_name v ++ "' object has no attribute 'get'"))
  end.

(** [v[k]] with a string key *)
Definition py_getitem (v : json) (k : string) : result json :=
  match v with
  | JObj d => getitem d k
  | JStr _ => Raise (TypeError "string indices must be integers")
  | JArr _ =>
      Raise (TypeError "list indices must be integers or slices, not str")
  | _ => Raise (TypeError
                  ("'" ++ type_name v ++ "' object is not subscriptable"))
  end.

Definition one_char (c : ascii) : json := JStr (String c "").

(** The items a [for] loop or comprehension visits. *)
Definition py_iter (v : json) : result (list json) :=
  match v with
  | JArr l => Ok l
  | JObj d => Ok (map (fun kv => JStr (fst kv)) d)
  | JStr s => Ok (map one_char (list_ascii_of_string s))
  | _ => Raise (TypeError
                  ("'" ++ type_name v ++ "' object is not iterable"))
  end.

(** [len(v)] *)
Definition py_len (v : json) : result nat :=
  match v with
  | JArr l => Ok (List.length l)
  | JObj d => Ok (List.length d)
  | JStr s => Ok (String.length s)
  | _ => Raise (TypeError
                  ("object of type '" ++ type_name v ++ "' has no len()"))
  end.

(** [v[0]] *)
Definition py_first (v : json) : result json :=
  match v with
  | JArr (x :: _) => Ok x
  | JArr [] => Raise (mk_exn "IndexError" "list index out of range")
  | JStr (String c _) => Ok (one_char c)
  | JStr EmptyString => Raise (mk_exn "IndexError" "string index out of range")
  | JObj _ => Raise (mk_exn "KeyError" "0")
  | _ => Raise (TypeError
                  ("'" ++ type_name v ++ "' object is not subscriptable"))
  end.

(** *** Strings *)

Fixpoint is_prefix (p s : string) : bool :=
  match p, s with
  | EmptyString, _ => true
  | String a p', String b s' => Ascii.eqb a b && is_prefix p' s'
  | String _ _, EmptyString => false
  end.

(** [p in s] for strings *)
Fixpoint contains (p s : string) : bool :=
  is_prefix p s ||
  match s with
  | EmptyString => false
  | String _ s' => contains p s'
  end.

Fixpoint lstrip (drop : ascii -> bool) (s : string) : string :=
  match s with
  | EmptyString => EmptyString
  | String c s' => if drop c then lstrip drop s' else s
  end.

Fixpoint rstrip (drop : ascii -> bool) (s : string) : string :=
  match s with
  | EmptyString => EmptyString
  | String c s' =>
      match rstrip drop s' with
      | EmptyString => if drop c then EmptyString else String c EmptyString
      | r => String c r
      end
  end.

(** [s.strip()] and [s.strip(chars)] *)
Definition strip (drop : ascii -> bool) (s : string) : string :=
  rstrip drop (lstrip drop s).

(** The decimal text of an integer, as [str(n)] and [f"{n}"] give it. *)
Definition str_of_Z (z : Z) : string := NilZero.string_of_int (Z.to_int z).

(** [s.replace(old, new)] for a non-empty [old]: occurrences are taken from
    the left and do not overlap; [skip] counts the characters of a match
    still to be passed over. *)
Fixpoint replace_from (skip : nat) (old new s : string) : string :=
  match s with
  | EmptyString => EmptyString
  | String c s' =>
      match skip with
      | S k => replace_from k old new s'
      | O =>
          if is_prefix old s
          then new ++ replace_from (String.length old - 1) old new s'
          else String c (replace_from 0 old new s')
      end
  end.

Definition replace (old new s : string) : string := replace_from 0 old new s.

(** [s.startswith(p)] *)
Definition startswith (s p : string) : bool := is_prefix p s.

(** [name in v] where [name] is a str.  A str equals only a str. *)
Definition str_eq_json (name : string) (v : json) : bool :=
  match v with
  | JStr s => String.eqb name s
  | _ => false
  end.

Definition py_in (name : string) (v : json) : result bool :=
  match v with
  | JArr l => Ok (existsb (str_eq_json name) l)
  | JObj d => Ok (has_key d name)
  | JStr s => Ok (contains name s)
  | _ => Raise (TypeError
                  ("argument of type '" ++ type_name v ++ "' is not iterable"))
  end.

(** *** Calls that read and change a world and may raise *)

Definition M (E W A : Type) : Type := W -> outcome E A * W.

Definition ret {E W A} (a : A) : M E W A := fun w => (Ok a, w).

Definition raise {E W A} (e : E) : M E W A := fun w => (Raise e, w).

Definition bind {E W A B} (m : M E W A) (k : A -> M E W B) : M E W B :=
  fun w =>
    match m w with
    | (Ok a, w') => k a w'
    | (Raise e, w') => (Raise e, w')
    end.

(** A pure step that may raise. *)
Definition lift {E W A} (r : outcome E A) : M E W A := fun w => (r, w).

(** [try: m  except ... as e: handler e] *)
Definition try_except {E E' W A} (m : M E W A) (handler : E -> M E' W A)
  : M E' W A :=
  fun w =>
    match m w with
    | (Ok a, w') => (Ok a, w')
    | (Raise e, w') => handler e w'
    end.

Declare Scope py_scope.
Delimit Scope py_scope with py.
Notation "x <- m ;; k" := (bind m (fun x => k))
  (at level 61, m at next level, right associativity) : py_scope.

End Py.

(* ================================================================== *)
(** ** What the interpreter accepts: a fragment of Python's grammar *)
(* ================================================================== *)

(** A module is compiled before any of its code runs, and one statement
    that does not parse makes the import raise [SyntaxError].  This module
    reads the lines of a simple statement as the tokenizer does and
    recognises what can be written with names, the keywords [if else for in
    is not and or None True False] and the operators [= . , ( ) [ ]]: an
    assignment or an expression statement.  The rules are the PEG rules of
    the language reference of the same names, tried in their order, with
    the alternatives that need other tokens left out.  Two rules are wider
    than the reference: a target may be any primary, and keyword and
    positional arguments may come in any order.  A statement the recogniser
    rejects is therefore rejected by the interpreter; the converse is not
    claimed. *)
Module Grammar.

Inductive token : Type :=
| NAME : string -> token
| KEYWORD : string -> token
| OP : ascii -> token
| NEWLINE : token.

(** The keywords of the language, and those the fragment covers. *)
Definition keywords : list string :=
  ["False"; "None"; "True"; "and"; "as"; "assert"; "async"; "await";
   "break"; "class"; "continue"; "def"; "del"; "elif"; "else"; "except";
   "finally"; "for"; "from"; "global"; "if"; "import"; "in"; "is";
   "lambda"; "nonlocal"; "not"; "or"; "pass"; "raise"; "return"; "try";
   "while"; "with"; "yield"].

Definition covered : list string :=
  ["False"; "None"; "True"; "and"; "else"; "for"; "if"; "in"; "is"; "not";
   "or"].

Definition between (lo hi : nat) (c : ascii) : bool :=
  Nat.leb lo (nat_of_ascii c) && Nat.leb (nat_of_ascii c) hi.

(** A character of an identifier: a letter, a digit or the underscore. *)
Definition is_ident (c : ascii) : bool :=
  between 65 90 c || between 97 122 c || between 48 57 c
  || Ascii.eqb c "_"%char.

Definition is_blank (c : ascii) : bool :=
  Ascii.eqb c " "%char || Ascii.eqb c (ascii_of_nat 9).

Definition opens (c : ascii) : bool :=
  Ascii.eqb c "("%char || Ascii.eqb c "["%char.

Definition closes (c : ascii) : bool :=
  Ascii.eqb c ")"%char || Ascii.eqb c "]"%char.

Definition is_operator (c : ascii) : bool :=
  Ascii.eqb c "="%char || Ascii.eqb c "."%char || Ascii.eqb c ","%char.

Definition is_digit (c : ascii) : bool := between 48 57 c.

(** A word is a keyword or a name; [None] for a keyword outside the
    fragment and for a word that starts with a digit. *)
Definition word (s : string) : option token :=
  if existsb (String.eqb s) covered then Some (KEYWORD s)
  else if existsb (String.eqb s) keywords then None
  else match s with
       | String c _ => if is_digit c then None else Some (NAME s)
       | EmptyString => None
       end.

(** A token with the number of the line it stands on. *)
Definition lexeme : Type := (token * nat)%type.

Definition flush (cur : string) (line : nat) : option (list lexeme) :=
  match cur with
  | EmptyString => Some []
  | _ => option_map (fun t => [(t, line)]) (word cur)
  end.

(** One physical line: [cur] is the identifier being read, [depth] counts
    the brackets that are open.  [None] for a character outside the
    fragment. *)
Fixpoint scan (line : nat) (s : string) (cur : string) (depth : nat)
  : option (list lexeme * nat) :=
  match s with
  | EmptyString => option_map (fun w => (w, depth)) (flush cur line)
  | String c s' =>
      if is_ident c then scan line s' (cur ++ String c EmptyString) depth
      else
        let depth' := if opens c then S depth
                      else if closes c then Nat.pred depth
                      else depth in
        match flush cur line with
        | None => None
        | Some w =>
            if is_blank c then
              option_map (fun r => (w ++ fst r, snd r))
                         (scan line s' EmptyString depth)
            else if opens c || closes c || is_operator c then
              option_map (fun r => (w ++ (OP c, line) :: fst r, snd r))
                         (scan line s' EmptyString depth')
            else None
        end
  end.

(** The lines of a statement: inside brackets an end of line joins the next
    line, outside it ends the statement with [NEWLINE]; a blank line gives
    no token. *)
Fixpoint tokenize (lines : list (nat * string)) (depth : nat)
  : option (list lexeme) :=
  match lines with
  | [] => Some []
  | (n, s) :: rest =>
      match scan n s EmptyString depth with
      | None => None
      | Some (toks, depth') =>
          option_map
            (fun more =>
               toks ++ (match toks, depth' with
                        | _ :: _, O => [(NEWLINE, n)]
                        | _, _ => []
                        end) ++ more)
            (tokenize rest depth')
      end
  end.

(** *** The recogniser

    A rule is tried at a position of the token list and answers with the
    position after what it matched.  [far] is the last position at which a
    token was looked at, by any rule tried so far: when nothing matches, the
    interpreter reports the error at that token. *)
Inductive reply : Type :=
| Match : nat -> nat -> reply        (* the next position, and [far] *)
| NoMatch : nat -> reply             (* [far] *)
| OutOfFuel : reply.

Definition rule : Type := nat -> nat -> reply.

Section Rules.

Variable ts : list lexeme.

Definition expect (p : token -> bool) : rule := fun pos far =>
  match nth_error ts pos with
  | Some (t, _) =>
      if p t then Match (S pos) (Nat.max far pos)
      else NoMatch (Nat.max far pos)
  | None => NoMatch far
  end.

Definition kw (s : string) : rule :=
  expect (fun t => match t with KEYWORD k => String.eqb k s | _ => false end).

Definition op (c : ascii) : rule :=
  expect (fun t => match t with OP o => Ascii.eqb o c | _ => false end).

Definition name : rule :=
  expect (fun t => match t with NAME _ => true | _ => false end).

Definition newline : rule :=
  expect (fun t => match t with NEWLINE => true | _ => false end).

Definition eps : rule := fun pos far => Match pos far.

(** [p q]: one after the other. *)
Definition seq (p q : rule) : rule := fun pos far =>
  match p pos far with
  | Match pos' far' => q pos' far'
  | r => r
  end.

(** [p | q]: the second is tried, from the same position, when the first
    does not match. *)
Definition alt (p q : rule) : rule := fun pos far =>
  match p pos far with
  | NoMatch far' => q pos far'
  | r => r
  end.

(** [[p]] *)
Definition opt (p : rule) : rule := alt p eps.

(** [p*] *)
Fixpoint many (n : nat) (p : rule) (pos far : nat) : reply :=
  match n with
  | O => OutOfFuel
  | S n' => alt (seq p (many n' p)) eps pos far
  end.

(** [p+] *)
Definition many1 (n : nat) (p : rule) : rule := seq p (many n p).

Inductive nonterminal : Type :=
| Statement | Targets | Expressions | Expression | Disjunction
| Conjunction | Inversion | Comparison | CompareOp | Primary | Trailer
| Arguments | Argument | Atom | GenExp | ListComp | ForIfClause.

(**
<<
statement:     (targets '=')+ expressions NEWLINE | expressions NEWLINE
targets:       primary (',' primary)* [',']
expressions:   expression (',' expression)* [',']
expression:    disjunction 'if' disjunction 'else' expression | disjunction
disjunction:   conjunction ('or' conjunction)*
conjunction:   inversion ('and' inversion)*
inversion:     'not' inversion | comparison
comparison:    primary (compare_op primary)*
compare_op:    'not' 'in' | 'in' | 'is' 'not' | 'is'
primary:       atom trailer*
trailer:       '.' NAME | genexp | '(' [arguments] ')'
             | '[' expressions ']'
arguments:     argument (',' argument)* [',']
argument:      NAME '=' expression | expression
atom:          NAME | 'True' | 'False' | 'None'
             | '(' [expressions] ')' | genexp
             | '[' [expressions] ']' | listcomp
genexp:        '(' expression for_if_clause+ ')'
listcomp:      '[' expression for_if_clause+ ']'
for_if_clause: 'for' targets 'in' disjunction ('if' disjunction)*
>>
    The condition after the [if] of a comprehension is a [disjunction], not
    an [expression]: a conditional expression can stand there only between
    parentheses. *)
Fixpoint parse (n : nat) (nt : nonterminal) (pos far : nat) : reply :=
  match n with
  | O => OutOfFuel
  | S n' =>
      let r := parse n' in
      (match nt with
       | Statement =>
           alt (seq (many1 n' (seq (r Targets) (op "=")))
                  (seq (r Expressions) newline))
               (seq (r Expressions) newline)
       | Targets =>
           seq (r Primary)
             (seq (many n' (seq (op ",") (r Primary))) (opt (op ",")))
       | Expressions =>
           seq (r Expression)
             (seq (many n' (seq (op ",") (r Expression))) (opt (op ",")))
       | Expression =>
           alt (seq (r Disjunction)
                  (seq (kw "if")
                     (seq (r Disjunction)
                        (seq (kw "else") (r Expression)))))
               (r Disjunction)
       | Disjunction =>
           seq (r Conjunction) (many n' (seq (kw "or") (r Conjunction)))
       | Conjunction =>
           seq (r Inversion) (many n' (seq (kw "and") (r Inversion)))
       | Inversion =>
           alt (seq (kw "not") (r Inversion)) (r Comparison)
       | Comparison =>
           seq (r Primary) (many n' (seq (r CompareOp) (r Primary)))
       | CompareOp =>
           alt (seq (kw "not") (kw "in"))
             (alt (kw "in")
                (alt (seq (kw "is") (kw "not")) (kw "is")))
       | Primary =>
           seq (r Atom) (many n' (r Trailer))
       | Trailer =>
           alt (seq (op ".") name)
             (alt (r GenExp)
                (alt (seq (op "(") (seq (opt (r Arguments)) (op ")")))
                     (seq (op "[") (seq (r Expressions) (op "]")))))
       | Arguments =>
           seq (r Argument)
             (seq (many n' (seq (op ",") (r Argument))) (opt (op ",")))
       | Argument =>
           alt (seq name (seq (op "=") (r Expression))) (r Expression)
       | Atom =>
           alt name
             (alt (kw "True")
                (alt (kw "False")
                   (alt (kw "None")
                      (alt (seq (op "(")
                              (seq (opt (r Expressions)) (op ")")))
                         (alt (r GenExp)
                            (alt (seq (op "[")
                                    (seq (opt (r Expressions)) (op "]")))
                                 (r ListComp)))))))
       | GenExp =>
           seq (op "(")
             (seq (r Expression) (seq (many1 n' (r ForIfClause)) (op ")")))
       | ListComp =>
           seq (op "[")
             (seq (r Expression) (seq (many1 n' (r ForIfClause)) (op "]")))
       | ForIfClause =>
           seq (kw "for")
             (seq (r Targets)
                (seq (kw "in")
                   (seq (r Disjunction)
                      (many n' (seq (kw "if") (r Disjunction))))))
       end) pos far
  end.

End Rules.

(** What becomes of a statement. *)
Inductive verdict : Type :=
| Passes : verdict
| Rejected : nat -> verdict      (* the line of the offending token *)
| NotCovered : verdict.          (* outside the fragment *)

Definition line_at (ts : list lexeme) (pos : nat) : nat :=
  match nth_error ts pos with
  | Some (_, line) => line
  | None => O
  end.

(** The statement on the given lines.  The fuel exceeds what a parse of the
    tokens can use: a rule that recurs has read a token or gone down one of
    the seventeen rules. *)
Definition check (lines : list (nat * string)) : verdict :=
  match tokenize lines 0 with
  | None => NotCovered
  | Some ts =>
      match parse ts (20 * S (List.length ts)) Statement 0 0 with
      | Match pos _ =>
          if Nat.eqb pos (List.length ts) then Passes else NotCovered
      | NoMatch far => Rejected (line_at ts far)
      | OutOfFuel => NotCovered
      end
  end.

End Grammar.

(* ================================================================== *)
(** ** src/utils/helpers.py *)
(* ================================================================== *)

Module Helpers.
Import Py.

(** What [load_config] finds at [config_path]. *)
Inductive config_file : Type :=
| Absent : config_file                 (* [config_file.exists()] is false *)
| Unreadable : exn -> config_file      (* [open] raises *)
| Content : string -> config_file.     (* the text of the file *)

Section LoadConfig.

(** [json.load]: [None] stands for [json.JSONDecodeError]. *)
Variable json_loads : string -> option json.

Definition malformed (text : string) : Prop := json_loads text = None.

Definition load_config (f : config_file) : json :=
  match f with
  | Absent => JObj []
  | Unreadable _ => JObj []
  | Content text =>
      match json_loads text with
      | Some v => v
      | None => JObj []
      end
  end.

End LoadConfig.

(** [field not in arguments] for a dict with str keys. *)
Definition not_in_arguments (field : json) (arguments : dict) : result bool :=
  match field with
  | JStr k => Ok (negb (has_key arguments k))
  | JArr _ | JObj _ =>
      Raise (TypeError ("unhashable type: '" ++ type_name field ++ "'"))
  | _ => Ok true
  end.

(** The [for field in required] loop with its early [return False]. *)
Fixpoint check_required (required : list json) (arguments : dict)
  : result bool :=
  match required with
  | [] => Ok true
  | field :: rest =>
      rbind (not_in_arguments field arguments) (fun missing =>
      if missing then Ok false else check_required rest arguments)
  end.

Definition validate_tool_input (tool_name : string) (arguments : dict)
    (schema : dict) : result bool :=
  rbind (py_get (get schema "properties" (JObj [])) "required" (JArr []))
        (fun required =>
  rbind (py_iter required) (fun fields =>
  check_required fields arguments)).

End Helpers.

(* ================================================================== *)
(** ** src/tools/file_tools.py *)
(* ================================================================== *)

Module FileTools.
Import Py.

(** A POSIX path as pathlib holds it: the components below the root [/].
    A path built by [/] may contain [..]; a resolved path does not.
    The file system has no symbolic links, so [resolve()] is the lexical
    normalisation the kernel would also perform.  A name holds no NUL
    character: the kernel admits none and [resolve()] raises on a path that
    holds one, so such paths are outside the model. *)
Definition path : Type := list string.

Fixpoint split_on (sep : ascii) (s : string) : list string :=
  match s with
  | EmptyString => [""]
  | String c s' =>
      if Ascii.eqb c sep then "" :: split_on sep s'
      else match split_on sep s' with
           | [] => [String c ""]
           | x :: xs => String c x :: xs
           end
  end.

(** pathlib drops empty and [.] components when it parses a string. *)
Definition kept (c : string) : bool :=
  negb (String.eqb c "") && negb (String.eqb c ".").

Definition parts (s : string) : list string :=
  filter kept (split_on "/"%char s).

Definition is_absolute (s : string) : bool := is_prefix "/" s.

(** [base / file_path]: an absolute right operand replaces the left one. *)
Definition join (base : path) (file_path : string) : path :=
  if is_absolute file_path then parts file_path
  else base ++ parts file_path.

Definition step (acc : path) (c : string) : path :=
  if String.eqb c ".." then removelast acc else acc ++ [c].

(** [p.resolve()] *)
Definition resolve (p : path) : path := fold_left step p [].

(** [str(p)] *)
Definition path_str (p : path) : string := "/" ++ String.concat "/" p.

(** [p.parent] *)
Definition parent (p : path) : path := removelast p.

Inductive node : Type :=
| File : string -> node
| Dir : node.

Definition path_eqb (p q : path) : bool :=
  if list_eq_dec string_dec p q then true else false.

(** The file system: what lives at each resolved path.  The root is a
    directory that always exists. *)
Definition filesystem : Type := list (path * node).

Fixpoint find_node (fs : filesystem) (p : path) : option node :=
  match fs with
  | [] => None
  | (q, n) :: fs' => if path_eqb q p then Some n else find_node fs' p
  end.

Definition node_at (fs : filesystem) (p : path) : option node :=
  match p with
  | [] => Some Dir
  | _ => find_node fs p
  end.

Definition put (fs : filesystem) (p : path) (n : node) : filesystem :=
  (p, n) :: fs.

(** The kernel's walk along an unresolved path: every component is looked
    up in a directory that exists. *)
Fixpoint walk (fs : filesystem) (cur : path) (comps : list string)
  : option path :=
  match comps with
  | [] => Some cur
  | c :: rest =>
      match node_at fs cur with
      | Some Dir =>
          if String.eqb c ".." then walk fs (removelast cur) rest
          else match node_at fs (cur ++ [c]) with
               | Some _ => walk fs (cur ++ [c]) rest
               | None => None
               end
      | _ => None
      end
  end.

(** [p.exists()] *)
Definition exists_ (fs : filesystem) (p : path) : bool :=
  match walk fs [] p with Some _ => true | None => false end.

Definition errno (cls what : string) (n : string) (p : path) : exn :=
  mk_exn cls ("[Errno " ++ n ++ "] " ++ what ++ ": '" ++ path_str p ++ "'").

(** Reading in text mode, with universal newlines: [\r\n] and a lone [\r]
    come back as [\n]. *)
Fixpoint universal_newlines (s : string) : string :=
  match s with
  | EmptyString => EmptyString
  | String c s' =>
      if Ascii.eqb c (ascii_of_nat 13) then
        match s' with
        | String c' _ =>
            if Ascii.eqb c' (ascii_of_nat 10) then universal_newlines s'
            else String (ascii_of_nat 10) (universal_newlines s')
        | EmptyString => String (ascii_of_nat 10) EmptyString
        end
      else String c (universal_newlines s')
  end.

(** No carriage return in the text. *)
Definition cr_free (s : string) : bool :=
  negb (contains (String (ascii_of_nat 13) EmptyString) s).

(** [open(p, 'r', encoding='utf-8').read()].  A file holds the text that was
    written to it, as on a POSIX system, where writing in text mode changes
    nothing. *)
Definition open_read (fs : filesystem) (p : path) : result string :=
  match walk fs [] p with
  | Some q =>
      match node_at fs q with
      | Some (File content) => Ok (universal_newlines content)
      | _ => Raise (errno "IsADirectoryError" "Is a directory" "21" p)
      end
  | None =>
      Raise (errno "FileNotFoundError" "No such file or directory" "2" p)
  end.

(** [p.mkdir(parents=True, exist_ok=True)]: missing directories are created
    along the way; a file in the way is an error.  [cur] is where the walk
    stands, [seen] the components walked so far, as written, and [made]
    tells whether a directory was missing before: pathlib then creates the
    ancestors one by one and fails at the file itself, while a first
    [os.mkdir] that meets the file fails for the whole path.  The
    directories made before a failure stay. *)
Fixpoint mkdirs (fs : filesystem) (cur seen : path) (made : bool)
    (comps : list string) : result path * filesystem :=
  match comps with
  | [] => (Ok cur, fs)
  | c :: rest =>
      if String.eqb c ".."
      then mkdirs fs (removelast cur) (seen ++ [c]) made rest
      else match node_at fs (cur ++ [c]) with
           | Some Dir => mkdirs fs (cur ++ [c]) (seen ++ [c]) made rest
           | Some (File _) =>
               (Raise (match made, rest with
                       | false, _ :: _ =>
                           errno "NotADirectoryError" "Not a directory" "20"
                                 (seen ++ c :: rest)
                       | _, _ =>
                           errno "FileExistsError" "File exists" "17"
                                 (seen ++ [c])
                       end), fs)
           | None =>
               mkdirs (put fs (cur ++ [c]) Dir) (cur ++ [c]) (seen ++ [c])
                      true rest
           end
  end.

(** How [write()] names the type of what it refuses. *)
Definition refused_type (content : json) : string :=
  match content with
  | JNull => "None"
  | _ => type_name content
  end.

(** [open(p, 'w')] followed by [f.write(content)]: the file is created or
    truncated before the write is attempted. *)
Definition open_write (fs : filesystem) (dir : path) (p : path)
    (content : json) : result unit * filesystem :=
  match last p ".." with
  | ".." => (Raise (errno "IsADirectoryError" "Is a directory" "21" p), fs)
  | name =>
      match node_at fs (dir ++ [name]) with
      | Some Dir =>
          (Raise (errno "IsADirectoryError" "Is a directory" "21" p), fs)
      | _ =>
          match content with
          | JStr text => (Ok tt, put fs (dir ++ [name]) (File text))
          | _ => (Raise (TypeError ("write() argument must be str, not "
                                    ++ refused_type content)),
                  put fs (dir ++ [name]) (File ""))
          end
      end
  end.

Record t : Type := { base_path : path }.

Definition PathEscape : exn := ValueError "Path outside allowed directory".

(** The containment test of the source: a prefix test on the two strings. *)
Definition inside (self : t) (full_path : path) : bool :=
  startswith (path_str (resolve full_path))
             (path_str (resolve (base_path self))).

Definition bad_operand (v : json) : exn :=
  TypeError ("unsupported operand type(s) for /: 'PosixPath' and '"
             ++ type_name v ++ "'").

Definition read_file (self : t) (file_path : json) (fs : filesystem)
  : result string :=
  match file_path with
  | JStr fp =>
      let full_path := join (base_path self) fp in
      if negb (inside self full_path) then Raise PathEscape
      else if negb (exists_ fs full_path)
      then Raise (FileNotFoundError ("File not found: " ++ fp))
      else open_read fs full_path
  | _ => Raise (bad_operand file_path)
  end.

Definition write_file (self : t) (file_path : json) (content : json)
    (fs : filesystem) : result string * filesystem :=
  match file_path with
  | JStr fp =>
      let full_path := join (base_path self) fp in
      if negb (inside self full_path) then (Raise PathEscape, fs)
      else match mkdirs fs [] [] false (parent full_path) with
           | (Raise e, fs1) => (Raise e, fs1)
           | (Ok dir, fs1) =>
               match open_write fs1 dir full_path content with
               | (Raise e, fs2) => (Raise e, fs2)
               | (Ok _, fs2) =>
                   (Ok ("Successfully wrote to " ++ fp)%string, fs2)
               end
           end
  | _ => (Raise (bad_operand file_path), fs)
  end.

(** The contract of the spec: [p] is the root or lies below it. *)
Fixpoint is_descendant (root p : path) : bool :=
  match root, p with
  | [], _ => true
  | r :: root', c :: p' => String.eqb r c && is_descendant root' p'
  | _ :: _, [] => false
  end.

(** What is left of the file system when the entry at [p] is gone. *)
Definition remove (fs : filesystem) (p : path) : filesystem :=
  filter (fun e => negb (path_eqb (fst e) p)) fs.

(** [p.unlink()]: removes a file; a directory is refused (EISDIR). *)
Definition unlink (fs : filesystem) (p : path) : result unit * filesystem :=
  match walk fs [] p with
  | Some q =>
      match node_at fs q with
      | Some (File _) => (Ok tt, remove fs q)
      | _ => (Raise (errno "IsADirectoryError" "Is a directory" "21" p), fs)
      end
  | None =>
      (Raise (errno "FileNotFoundError" "No such file or directory" "2" p),
       fs)
  end.

Definition delete_file (self : t) (file_path : json) (fs : filesystem)
  : result string * filesystem :=
  match file_path with
  | JStr fp =>
      let full_path := join (base_path self) fp in
      if negb (inside self full_path) then (Raise PathEscape, fs)
      else if negb (exists_ fs full_path)
      then (Raise (FileNotFoundError ("File not found: " ++ fp)), fs)
      else match unlink fs full_path with
           | (Raise e, fs') => (Raise e, fs')
           | (Ok _, fs') => (Ok ("Successfully deleted " ++ fp)%string, fs')
           end
  | _ => (Raise (bad_operand file_path), fs)
  end.

(** A file system is a tree: whatever exists lies in a directory. *)
Definition parent_is_dir (fs : filesystem) (p : path) : bool :=
  match node_at fs (removelast p) with
  | Some Dir => true
  | _ => false
  end.

Definition well_formed (fs : filesystem) : bool :=
  forallb (fun e => parent_is_dir fs (fst e)) fs.

(** [fs'] has everything [fs] has. *)
Definition extends (fs fs' : filesystem) : Prop :=
  forall p n, node_at fs p = Some n -> node_at fs' p = Some n.

(** [fs'] has a directory wherever [fs] has one, and something wherever
    [fs] has something. *)
Definition covers (fs fs' : filesystem) : Prop :=
  (forall p, node_at fs p = Some Dir -> node_at fs' p = Some Dir) /\
  (forall p, node_at fs p <> None -> node_at fs' p <> None).

(** No component holds a slash: true of every path pathlib parses. *)
Definition slash_free (c : string) : bool :=
  negb (contains "/" c).

(** A component as pathlib produces them: not empty, no slash. *)
Definition plain (c : string) : bool :=
  negb (String.eqb c "") && slash_free c.

(** [p] agrees with [root] component by component, except that the last
    component of [root] need only begin the component of [p] at its place. *)
Fixpoint begins_with (root p : path) : bool :=
  match root, p with
  | [], _ => true
  | [l], x :: _ => is_prefix l x
  | l :: root', x :: p' => String.eqb l x && begins_with root' p'
  | _ :: _, [] => false
  end.

End FileTools.

(* ================================================================== *)
(** ** src/tools/data_tools.py *)
(* ================================================================== *)

Module DataTools.
Import Py.

(** Lines 86 to 90 of the file, the assignment to [values] in
    [_aggregate_data], as they stand. *)
Definition lines_86_90 : list (nat * string) :=
  [(86%nat, "            values = [");
   (87%nat, "                item.get(field) if isinstance(item, dict) else item");
   (88%nat, "                for item in data");
   (89%nat, "                if item.get(field) is not None if isinstance(item, dict) else item is not None");
   (90%nat, "            ]")].

(** Importing the module: the file is compiled whole before any [def] of it
    is executed.  The statement of lines 86 to 90 is the one the compiler
    stops at; the rest of the file is taken to compile. *)
Definition compile_module : result unit :=
  match Grammar.check lines_86_90 with
  | Grammar.Rejected line =>
      Raise (SyntaxError ("invalid syntax (data_tools.py, line "
                          ++ str_of_Z (Z.of_nat line) ++ ")"))
  | _ => Ok tt
  end.

(** What a caller of the module gets: the import comes before any call of
    a method of [DataTools]. *)
Definition after_import {A : Type} (call : result A) : result A :=
  rbind compile_module (fun _ => call).

(** The definitions below read the text of [_evaluate_condition] (lines 105
    to 119) and of [_filter_data] (lines 55 to 63) on its own.  In the file
    as it stands no call reaches them: [after_import] says what a call
    comes to. *)

(** The characters [str.strip()] removes, among the code points below 256:
    those [str.isspace()] holds of. *)
Definition is_space (c : ascii) : bool :=
  let n := nat_of_ascii c in
  (Nat.leb 9 n && Nat.leb n 13) || (Nat.leb 28 n && Nat.leb n 32)
  || Nat.eqb n 133 || Nat.eqb n 160.

(** The double and the single quote. *)
Definition is_quote (c : ascii) : bool :=
  Ascii.eqb c (ascii_of_nat 34) || Ascii.eqb c (ascii_of_nat 39).

(** [s.split("==", 1)] when it yields two pieces. *)
Fixpoint split_eqeq (s : string) : option (string * string) :=
  match s with
  | EmptyString => None
  | String c s' =>
      match s' with
      | String c' rest =>
          if Ascii.eqb c "="%char && Ascii.eqb c' "="%char
          then Some (EmptyString, rest)
          else match split_eqeq s' with
               | Some (k, v) => Some (String c k, v)
               | None => None
               end
      | EmptyString => None
      end
  end.

Section Evaluate.

(** The builtin [str()] on a value read from the data. *)
Variable py_str : json -> string.

(** [_evaluate_condition]: the bare [except] turns the failed unpacking of a
    split without two pieces into [True]. *)
Definition _evaluate_condition (item : json) (condition : string) : bool :=
  match item with
  | JObj d =>
      if contains "==" condition then
        match split_eqeq condition with
        | Some (key, value) =>
            let key := strip is_space key in
            let value := strip is_quote (strip is_space value) in
            String.eqb (py_str (get d key (JStr ""))) value
        | None => true
        end
      else true
  | _ => true
  end.

(** [_filter_data]: [condition] is [None] or a str. *)
Definition _filter_data (data : json) (condition : option string) : json :=
  match data with
  | JArr items =>
      match condition with
      | Some c =>
          if negb (String.eqb c "")
          then JArr (filter (fun item => _evaluate_condition item c) items)
          else data
      | None => data
      end
  | _ => data
  end.

End Evaluate.

End DataTools.

(* ================================================================== *)
(** ** src/tools/lm_studio_tools.py *)
(* ================================================================== *)

Module LMStudioTools.
Import Py.
Local Open Scope py_scope.

(** *** The HTTP client and the gateway behind it *)

Inductive http_request : Type :=
| GET : string -> http_request
| POST : string -> json -> http_request.

(** What the adapter reads of an [httpx.Response]. *)
Record response : Type := {
  status_code : Z;
  body : result json;        (* [response.json()] *)
  status_error : string      (* [str] of the error of [raise_for_status()] *)
}.

Inductive http_outcome : Type :=
| ConnectFails : http_outcome          (* [httpx.ConnectError] *)
| Fails : exn -> http_outcome          (* any other failure of the request *)
| Responds : response -> http_outcome.

(** The gateway answers a request knowing the requests sent before it. *)
Definition gateway : Type := list http_request -> http_request -> http_outcome.

(** The exceptions the [except] clauses of the adapter tell apart. *)
Inductive raised : Type :=
| ConnectError : raised
| HTTPStatusError : response -> raised
| Other : exn -> raised.

(** The world of the adapter: the requests sent so far, oldest first. *)
Definition wire : Type := list http_request.

Definition send (gw : gateway) (req : http_request) : M raised wire response :=
  fun log =>
    (match gw log req with
     | ConnectFails => Raise ConnectError
     | Fails e => Raise (Other e)
     | Responds r => Ok r
     end, log ++ [req]).

Definition is_success (r : response) : bool :=
  (200 <=? status_code r)%Z && (status_code r <? 300)%Z.

(** [response.raise_for_status()] *)
Definition raise_for_status {W} (r : response) : M raised W unit :=
  if is_success r then ret tt else raise (HTTPStatusError r).

Definition pure {W A} (r : result A) : M raised W A :=
  lift (match r with Ok a => Ok a | Raise e => Raise (Other e) end).

Record t : Type := { base_url : string }.

Definition is_slash (c : ascii) : bool := Ascii.eqb c "/"%char.

(** [__init__]: [env] is the value of [LM_STUDIO_URL], if set; [url] is the
    [base_url] argument, [None] included. *)
Definition init (env : option string) (url : json) : result t :=
  let url := match url with
             | JNull => match env with
                        | Some u => JStr u
                        | None => JStr "http://localhost:1234"
                        end
             | _ => url
             end in
  match url with
  | JStr u => Ok {| base_url := rstrip is_slash u |}
  | _ => Raise (AttributeError ("'" ++ type_name url
                                ++ "' object has no attribute 'rstrip'"))
  end.

Definition models_url (self : t) : string := base_url self ++ "/v1/models".
Definition completions_url (self : t) : string :=
  base_url self ++ "/v1/completions".
Definition chat_url (self : t) : string :=
  base_url self ++ "/v1/chat/completions".

Definition NoModelsAvailable : exn :=
  Exception "No models available in LM Studio".

(** The block under [if not model:], shared by the two completion calls. *)
Definition resolve_default_model (gw : gateway) (self : t)
  : M raised wire json :=
  models_response <- send gw (GET (models_url self)) ;;
  models_data <- pure (body models_response) ;;
  data <- pure (py_get models_data "data" JNull) ;;
  if truthy data then
    data <- pure (py_getitem models_data "data") ;;
    n <- pure (py_len data) ;;
    if Nat.ltb 0 n then
      data <- pure (py_getitem models_data "data") ;;
      first <- pure (py_first data) ;;
      pure (py_getitem first "id")
    else raise (Other NoModelsAvailable)
  else raise (Other NoModelsAvailable).

Definition choose_model (gw : gateway) (self : t) (model : json)
  : M raised wire json :=
  if negb (truthy model) then resolve_default_model gw self else ret model.

(** [result.get("choices", [{}])[0].get(key, default)] *)
Definition first_choice (result : json) (key : string) (default : json)
  : outcome exn json :=
  rbind (py_get result "choices" (JArr [JObj []])) (fun choices =>
  rbind (py_first choices) (fun choice =>
  py_get choice key default)).

Definition cannot_connect (self : t) : exn :=
  Exception ("Cannot connect to LM Studio at " ++ base_url self ++ ". "
             ++ "Make sure LM Studio is running with the local server enabled.").

Definition reraise {W A} (r : raised) : M exn W A :=
  match r with
  | ConnectError =>
      raise (mk_exn "ConnectError" "All connection attempts failed")
  | HTTPStatusError resp => raise (mk_exn "HTTPStatusError" (status_error resp))
  | Other e => raise e
  end.

Definition generate_text (gw : gateway) (self : t)
    (prompt model max_tokens temperature : json) : M exn wire json :=
  try_except
    (model <- choose_model gw self model ;;
     response <- send gw (POST (completions_url self)
                   (JObj [("model", model); ("prompt", prompt);
                          ("max_tokens", max_tokens);
                          ("temperature", temperature)])) ;;
     _ <- raise_for_status response ;;
     result <- pure (body response) ;;
     generated_text <- pure (first_choice result "text" (JStr "")) ;;
     usage <- pure (py_get result "usage" (JObj [])) ;;
     finish_reason <- pure (first_choice result "finish_reason" (JStr "")) ;;
     ret (JObj [("text", generated_text); ("model", model);
                ("usage", usage); ("finish_reason", finish_reason)]))
    (fun e =>
       match e with
       | ConnectError => raise (cannot_connect self)
       | HTTPStatusError resp =>
           raise (Exception ("LM Studio API error: "
                             ++ str_of_Z (status_code resp)))
       | Other _ => reraise e
       end).

Definition chat_completion (gw : gateway) (self : t)
    (messages model temperature max_tokens : json) : M exn wire json :=
  try_except
    (model <- choose_model gw self model ;;
     response <- send gw (POST (chat_url self)
                   (JObj [("model", model); ("messages", messages);
                          ("temperature", temperature);
                          ("max_tokens", max_tokens)])) ;;
     _ <- raise_for_status response ;;
     result <- pure (body response) ;;
     message <- pure (first_choice result "message" (JObj [])) ;;
     usage <- pure (py_get result "usage" (JObj [])) ;;
     finish_reason <- pure (first_choice result "finish_reason" (JStr "")) ;;
     ret (JObj [("message", message); ("model", model);
                ("usage", usage); ("finish_reason", finish_reason)]))
    (fun e =>
       match e with
       | ConnectError => raise (cannot_connect self)
       | _ => reraise e
       end).

Definition list_models (gw : gateway) (self : t) : M exn wire json :=
  try_except
    (response <- send gw (GET (models_url self)) ;;
     _ <- raise_for_status response ;;
     models_data <- pure (body response) ;;
     pure (py_get models_data "data" (JArr [])))
    (fun e =>
       match e with
       | ConnectError =>
           raise (Exception
                    "Cannot connect to LM Studio. Make sure it's running.")
       | _ => reraise e
       end).

(** [[m.get("id", "unknown") for m in models]] *)
Fixpoint model_ids (models : list json) : result (list json) :=
  match models with
  | [] => Ok []
  | m :: rest =>
      rbind (py_get m "id" (JStr "unknown")) (fun id =>
      rbind (model_ids rest) (fun ids => Ok (id :: ids)))
  end.

(** The requests the choice of a model costs. *)
Definition model_query (self : t) (model : json) : wire :=
  if truthy model then [] else [GET (models_url self)].

(** The bodies of the two completion requests. *)
Definition completion_request (self : t)
    (model prompt max_tokens temperature : json) : http_request :=
  POST (completions_url self)
    (JObj [("model", model); ("prompt", prompt);
           ("max_tokens", max_tokens); ("temperature", temperature)]).

Definition chat_request (self : t)
    (model messages temperature max_tokens : json) : http_request :=
  POST (chat_url self)
    (JObj [("model", model); ("messages", messages);
           ("temperature", temperature); ("max_tokens", max_tokens)]).

(** The dict [generate_text] returns for a choice of an answer. *)
Definition generated (model : json) (choice result : dict) : json :=
  JObj [("text", get choice "text" (JStr ""));
        ("model", model);
        ("usage", get result "usage" (JObj []));
        ("finish_reason", get choice "finish_reason" (JStr ""))].

Definition test_connection (gw : gateway) (self : t) : M exn wire json :=
  try_except
    (models <- list_models gw self ;;
     n <- lift (py_len models) ;;
     items <- lift (py_iter models) ;;
     ids <- lift (model_ids items) ;;
     ret (JObj [("status", JStr "connected");
                ("url", JStr (base_url self));
                ("models_count", JInt (Z.of_nat n));
                ("models", JArr ids)]))
    (fun e => ret (JObj [("status", JStr "disconnected");
                         ("url", JStr (base_url self));
                         ("error", JStr (exn_str e))])).

(** [m.get("id", "unknown")] on a dict *)
Definition id_of (m : dict) : json := get m "id" (JStr "unknown").

End LMStudioTools.

(* ================================================================== *)
(** ** src/tools/api_tools.py *)
(* ================================================================== *)

Module APITools.
Import Py.

(** [APITools(timeout)]; the server builds it with the default, 30. *)
Record t : Type := { timeout : Z }.

Definition default : t := {| timeout := 30 |}.

(** What [client.request] is called with: the method, the URL, and the
    keyword arguments [headers], [timeout] and, for a body, [content] (a
    str) or [json] (anything else). *)
Record request : Type := {
  rq_method : string;
  rq_url : json;
  rq_headers : json;
  rq_content : option json;
  rq_json : option json;
  rq_timeout : Z
}.

(** What [call_api] reads of the response; [headers] is
    [dict(response.headers)], [body] is [response.json()], [None] when it
    raises. *)
Record response : Type := {
  status_code : Z;
  headers : dict;
  text : string;
  body : option json
}.

Inductive http_outcome : Type :=
| TimesOut : http_outcome                 (* [httpx.TimeoutException] *)
| RequestFails : string -> http_outcome   (* another [httpx.RequestError] *)
| Breaks : exn -> http_outcome            (* any other exception *)
| Responds : response -> http_outcome.

Definition network : Type := list request -> request -> http_outcome.

(** The requests sent so far, oldest first. *)
Definition wire : Type := list request.

(** Text that is ASCII throughout. *)
Definition ascii_only (s : string) : bool :=
  forallb (fun c => Nat.ltb (nat_of_ascii c) 128) (list_ascii_of_string s).

(** [s.upper()] on ASCII text: the letters [a] to [z] become [A] to [Z], any
    other ASCII character stays.  Outside ASCII [str.upper()] follows the
    Unicode case mapping, which this function does not give: it is to be
    read for text that [ascii_only] holds of. *)
Definition upper_char (c : ascii) : ascii :=
  let n := nat_of_ascii c in
  if Nat.leb 97 n && Nat.leb n 122 then ascii_of_nat (n - 32) else c.

Fixpoint upper (s : string) : string :=
  match s with
  | EmptyString => EmptyString
  | String c s' => String (upper_char c) (upper s')
  end.

(** [method.upper()] *)
Definition py_upper (method : json) : result string :=
  match method with
  | JStr m => Ok (upper m)
  | _ => Raise (AttributeError ("'" ++ type_name method
                                ++ "' object has no attribute 'upper'"))
  end.

Definition content_type : string := "Content-Type".

(** [request_headers["Content-Type"] = "application/json"] *)
Definition set_content_type (request_headers : json) : result json :=
  match request_headers with
  | JObj d => Ok (JObj (setitem d content_type (JStr "application/json")))
  | JArr _ =>
      Raise (TypeError "list indices must be integers or slices, not str")
  | _ => Raise (TypeError ("'" ++ type_name request_headers
                           ++ "' object does not support item assignment"))
  end.

(** The statements of [call_api] before the request is made. *)
Definition prepare (self : t) (url method headers body : json)
  : result request :=
  let request_headers := if truthy headers then headers else JObj [] in
  rbind (py_in content_type request_headers) (fun present =>
  rbind (if negb present && truthy body
         then set_content_type request_headers
         else Ok request_headers) (fun request_headers =>
  rbind (py_upper method) (fun method_upper =>
  Ok {| rq_method := method_upper;
        rq_url := url;
        rq_headers := request_headers;
        rq_content := if truthy body
                      then match body with JStr _ => Some body | _ => None end
                      else None;
        rq_json := if truthy body
                   then match body with JStr _ => None | _ => Some body end
                   else None;
        rq_timeout := timeout self |}))).

(** The dict [call_api] returns for a response. *)
Definition result_of (r : response) : json :=
  JObj [("status_code", JInt (status_code r));
        ("headers", JObj (headers r));
        ("data", match body r with
                 | Some v => v
                 | None => JStr (text r)
                 end)].

(** The headers, [content] and [json] that [call_api] sends for the dict of
    headers and the body it was given. *)
Definition sent_headers (d : dict) (body : json) : dict :=
  if has_key d content_type || negb (truthy body) then d
  else d ++ [(content_type, JStr "application/json")].

Definition sent_content (body : json) : option json :=
  if truthy body then match body with JStr _ => Some body | _ => None end
  else None.

Definition sent_json (body : json) : option json :=
  if truthy body then match body with JStr _ => None | _ => Some body end
  else None.

(** The request for a bare URL: [GET], no headers, no body. *)
Definition plain_get (self : t) (url : json) : request :=
  {| rq_method := "GET"; rq_url := url; rq_headers := JObj [];
     rq_content := None; rq_json := None; rq_timeout := timeout self |}.

Section CallApi.

(** The builtin [str()] as the f-string of the timeout message applies it
    to [url]. *)
Variable py_str : json -> string.
Variable net : network.

Definition timed_out (url : json) : exn :=
  Exception ("Request to " ++ py_str url ++ " timed out").

Definition request_failed (msg : string) : exn :=
  Exception ("Request failed: " ++ msg).

Definition call_api (self : t) (url method headers body : json)
  : M exn wire json :=
  fun log =>
    match prepare self url method headers body with
    | Raise e => (Raise e, log)
    | Ok rq =>
        (match net log rq with
         | TimesOut => Raise (timed_out url)
         | RequestFails msg => Raise (request_failed msg)
         | Breaks e => Raise e
         | Responds r => Ok (result_of r)
         end, log ++ [rq])
    end.

End CallApi.

End APITools.

(* ================================================================== *)
(** ** src/mcp_server.py *)
(* ================================================================== *)

Module Server.
Import Py.
Local Open Scope py_scope.

(** [mcp.types.Tool] and [mcp.types.Resource] *)
Record Tool : Type := {
  name : string;
  description : string;
  inputSchema : dict
}.

Record Resource : Type := {
  uri : string;
  res_name : string;
  res_description : string;
  mimeType : string
}.

(** One dict of the list that [call_tool] returns; [isError] is [None] when
    the key is absent. *)
Record entry : Type := { text : string; isError : option bool }.

Definition envelope : Type := list entry.

Definition text_entry (t : string) : entry :=
  {| text := t; isError := None |}.

Definition error_entry (t : string) : entry :=
  {| text := t; isError := Some true |}.

(** [MCPServerImpl] after [__init__]: the configuration and the LM Studio
    adapter, [None] when it is disabled. *)
Record t : Type := {
  config : json;
  lm_studio : option LMStudioTools.t
}.

(** [setup_logging(level)] fails only on [level.upper()]. *)
Definition setup_logging (level : json) : result unit :=
  match level with
  | JStr _ => Ok tt
  | _ => Raise (AttributeError ("'" ++ type_name level
                                ++ "' object has no attribute 'upper'"))
  end.

Section Construction.

Variable json_loads : string -> option json.
(** The value of the environment variable [LM_STUDIO_URL], if set. *)
Variable env : option string.

(** The body of [__init__] (lines 35 to 64), given what lies at
    [config_path].  The tool objects of lines 46 to 48 are built without
    arguments from classes that the imports of the module provide; the
    model keeps no field for them. *)
Definition init (config_path : option string) (file : Helpers.config_file)
  : result t :=
  let config :=
    match config_path with
    | Some p => if negb (String.eqb p "")
                then Helpers.load_config json_loads file
                else JObj []
    | None => JObj []
    end in
  rbind (py_get config "lm_studio" (JObj [])) (fun lm_studio_config =>
  rbind (py_get lm_studio_config "enabled" (JBool false)) (fun enabled =>
  rbind (if truthy enabled
         then rbind (py_get lm_studio_config "base_url"
                            (JStr "http://localhost:1234")) (fun url =>
              rbind (LMStudioTools.init env url) (fun lm => Ok (Some lm)))
         else Ok None) (fun lm =>
  rbind (py_get config "logging" (JObj [])) (fun logging =>
  rbind (py_get logging "level" (JStr "INFO")) (fun log_level =>
  rbind (setup_logging log_level) (fun _ =>
  Ok {| config := config; lm_studio := lm |})))))).

(** The imports at the head of the module (lines 18 to 22), run when the
    module is first imported: [from .tools.data_tools import DataTools]
    compiles [data_tools.py]; the other modules compile. *)
Definition imports : result unit := DataTools.compile_module.

(** [from src.mcp_server import MCPServerImpl] followed by
    [MCPServerImpl(config_path)]: what constructing a server comes to in a
    fresh interpreter. *)
Definition construct (config_path : option string)
    (file : Helpers.config_file) : result t :=
  rbind imports (fun _ => init config_path file).

End Construction.

Definition _is_tool_enabled (self : t) (tool_name : string) : result bool :=
  rbind (py_get (config self) "tools" (JObj [])) (fun tools =>
  rbind (py_get tools "enabled" (JArr [])) (fun enabled_tools =>
  py_in tool_name enabled_tools)).

(** *** The tool descriptors of [list_tools] *)

Definition prop (type descr : string) : json :=
  JObj [("type", JStr type); ("description", JStr descr)].

Definition prop_default (type descr : string) (default : json) : json :=
  JObj [("type", JStr type); ("description", JStr descr);
        ("default", default)].

Definition strs (l : list string) : json := JArr (map JStr l).

Definition object_schema (props : dict) (required : list string) : dict :=
  [("type", JStr "object"); ("properties", JObj props);
   ("required", strs required)].

Definition read_file_tool : Tool :=
  {| name := "read_file";
     description := "Read content from a file";
     inputSchema := object_schema
       [("path", prop "string" "Path to the file to read")]
       ["path"] |}.

Definition write_file_tool : Tool :=
  {| name := "write_file";
     description := "Write content to a file";
     inputSchema := object_schema
       [("path", prop "string" "Path to the file to write");
        ("content", prop "string" "Content to write to the file")]
       ["path"; "content"] |}.

Definition list_files_tool : Tool :=
  {| name := "list_files";
     description := "List files in a directory";
     inputSchema := object_schema
       [("directory", prop "string" "Directory path to list")]
       ["directory"] |}.

Definition call_api_tool : Tool :=
  {| name := "call_api";
     description := "Make an HTTP API call";
     inputSchema := object_schema
       [("url", prop "string" "API endpoint URL");
        ("method", JObj [("type", JStr "string");
                         ("enum", strs ["GET"; "POST"; "PUT"; "DELETE"]);
                         ("description", JStr "HTTP method")]);
        ("headers", prop "object" "HTTP headers");
        ("body", prop "object" "Request body")]
       ["url"; "method"] |}.

Definition process_data_tool : Tool :=
  {| name := "process_data";
     description := "Process and transform data";
     inputSchema := object_schema
       [("data", prop "string" "Data to process (JSON string)");
        ("operation",
         JObj [("type", JStr "string");
               ("enum", strs ["filter"; "sort"; "transform"; "aggregate"]);
               ("description", JStr "Operation to perform")])]
       ["data"; "operation"] |}.

Definition lm_studio_generate_tool : Tool :=
  {| name := "lm_studio_generate";
     description := "Generate text using LM Studio local LLM";
     inputSchema := object_schema
       [("prompt", prop "string" "Input prompt for text generation");
        ("model", prop "string"
           "Model name (optional, uses default if not specified)");
        ("max_tokens", prop_default "integer" "Maximum tokens to generate"
           (JInt 100));
        ("temperature", prop_default "number"
           "Sampling temperature (0.0-1.0)" (JFloat (7 # 10)))]
       ["prompt"] |}.

Definition lm_studio_chat_tool : Tool :=
  {| name := "lm_studio_chat";
     description := "Chat completion using LM Studio local LLM";
     inputSchema := object_schema
       [("messages",
         JObj [("type", JStr "array");
               ("description",
                JStr "List of messages with 'role' and 'content'");
               ("items",
                JObj (object_schema
                  [("role", JObj [("type", JStr "string");
                                  ("enum", strs ["user"; "assistant";
                                                 "system"])]);
                   ("content", JObj [("type", JStr "string")])]
                  ["role"; "content"]))]);
        ("model", prop "string" "Model name (optional)");
        ("temperature", prop_default "number" "Sampling temperature"
           (JFloat (7 # 10)));
        ("max_tokens", prop_default "integer" "Maximum tokens to generate"
           (JInt 500))]
       ["messages"] |}.

Definition empty_schema : dict :=
  [("type", JStr "object"); ("properties", JObj [])].

Definition lm_studio_list_models_tool : Tool :=
  {| name := "lm_studio_list_models";
     description := "List available models in LM Studio";
     inputSchema := empty_schema |}.

Definition lm_studio_test_connection_tool : Tool :=
  {| name := "lm_studio_test_connection";
     description := "Test connection to LM Studio";
     inputSchema := empty_schema |}.

(** [if self._is_tool_enabled(tool.name): tools.append(tool)] *)
Definition append_if_enabled (self : t) (tool : Tool) (tools : list Tool)
  : result (list Tool) :=
  rbind (_is_tool_enabled self (name tool)) (fun enabled =>
  Ok (if enabled then tools ++ [tool] else tools)).

(** [if self.lm_studio and self._is_tool_enabled(tool.name): ...] *)
Definition append_if_lm_enabled (self : t) (tool : Tool) (tools : list Tool)
  : result (list Tool) :=
  match lm_studio self with
  | Some _ => append_if_enabled self tool tools
  | None => Ok tools
  end.

Definition list_tools (self : t) : result (list Tool) :=
  rbind (append_if_enabled self read_file_tool []) (fun tools =>
  rbind (append_if_enabled self write_file_tool tools) (fun tools =>
  rbind (append_if_enabled self list_files_tool tools) (fun tools =>
  rbind (append_if_enabled self call_api_tool tools) (fun tools =>
  rbind (append_if_enabled self process_data_tool tools) (fun tools =>
  rbind (append_if_lm_enabled self lm_studio_generate_tool tools) (fun tools =>
  rbind (append_if_lm_enabled self lm_studio_chat_tool tools) (fun tools =>
  rbind (append_if_lm_enabled self lm_studio_list_models_tool tools)
        (fun tools =>
  append_if_lm_enabled self lm_studio_test_connection_tool tools)))))))).

(** *** The backends behind [call_tool]

    The operations of [self.file_tools], [self.api_tools], [self.data_tools]
    and of the LM Studio adapter, acting on a world [W].  Arguments arrive
    as they are found in the argument bag. *)
Record Backends (W : Type) : Type := {
  be_read_file : json -> M exn W string;
  be_write_file : json -> json -> M exn W string;
  be_list_files : json -> M exn W json;
  be_call_api : json -> json -> json -> json -> M exn W json;
  be_process_data : json -> json -> M exn W json;
  be_generate_text :
    LMStudioTools.t -> json -> json -> json -> json -> M exn W json;
  be_chat_completion :
    LMStudioTools.t -> json -> json -> json -> json -> M exn W json;
  be_list_models : LMStudioTools.t -> M exn W json;
  be_test_connection : LMStudioTools.t -> M exn W json
}.
Arguments be_read_file {W} _ _ _.
Arguments be_write_file {W} _ _ _ _.
Arguments be_list_files {W} _ _ _.
Arguments be_call_api {W} _ _ _ _ _ _.
Arguments be_process_data {W} _ _ _ _.
Arguments be_generate_text {W} _ _ _ _ _ _ _.
Arguments be_chat_completion {W} _ _ _ _ _ _ _.
Arguments be_list_models {W} _ _ _.
Arguments be_test_connection {W} _ _ _.

Definition nl : string := String (ascii_of_nat 10) EmptyString.

Section Dispatch.

Context {W : Type}.
Variable B : Backends W.

(** The builtin [str()] as an f-string applies it, and
    [json.dumps(_, indent=2)]. *)
Variable py_str : json -> string.
Variable json_dumps : json -> string.

Definition pure {A} (r : result A) : M exn W A := lift r.

(** [name == tool and self.lm_studio]: the adapter when the guard holds. *)
Definition lm_guard (self : t) (tool : string) (n : string)
  : option LMStudioTools.t :=
  if String.eqb n tool then lm_studio self else None.

Definition unknown_tool (n : string) : exn :=
  ValueError ("Unknown tool: " ++ n).

Definition generate_branch (lm : LMStudioTools.t) (arguments : dict)
  : M exn W envelope :=
  prompt <- pure (getitem arguments "prompt") ;;
  result <- be_generate_text B lm prompt
              (get arguments "model" JNull)
              (get arguments "max_tokens" (JInt 100))
              (get arguments "temperature" (JFloat (7 # 10))) ;;
  generated <- pure (py_getitem result "text") ;;
  model <- pure (py_getitem result "model") ;;
  usage <- pure (py_get result "usage" (JObj [])) ;;
  tokens <- pure (py_get usage "total_tokens" (JStr "N/A")) ;;
  ret [text_entry ("Generated text:" ++ nl ++ py_str generated
                   ++ nl ++ nl ++ "Model: " ++ py_str model
                   ++ nl ++ "Tokens used: " ++ py_str tokens)].

Definition chat_branch (lm : LMStudioTools.t) (arguments : dict)
  : M exn W envelope :=
  messages <- pure (getitem arguments "messages") ;;
  result <- be_chat_completion B lm messages
              (get arguments "model" JNull)
              (get arguments "temperature" (JFloat (7 # 10)))
              (get arguments "max_tokens" (JInt 500)) ;;
  message <- pure (py_get result "message" (JObj [])) ;;
  content <- pure (py_get message "content" (JStr "")) ;;
  model <- pure (py_get result "model" (JStr "N/A")) ;;
  ret [text_entry ("Assistant: " ++ py_str content
                   ++ nl ++ nl ++ "Model: " ++ py_str model)].

Definition list_models_branch (lm : LMStudioTools.t) : M exn W envelope :=
  models <- be_list_models B lm ;;
  items <- pure (py_iter models) ;;
  model_list <- pure (LMStudioTools.model_ids items) ;;
  ret [text_entry ("Available models in LM Studio:" ++ nl
                   ++ json_dumps (JArr model_list))].

Definition test_connection_branch (lm : LMStudioTools.t)
  : M exn W envelope :=
  status <- be_test_connection B lm ;;
  ret [text_entry (json_dumps status)].

(** The [try] block of [call_tool]. *)
Definition call_tool_body (self : t) (n : string) (arguments : dict)
  : M exn W envelope :=
  if String.eqb n "read_file" then
    path <- pure (getitem arguments "path") ;;
    result <- be_read_file B path ;;
    ret [text_entry result]
  else if String.eqb n "write_file" then
    path <- pure (getitem arguments "path") ;;
    content <- pure (getitem arguments "content") ;;
    result <- be_write_file B path content ;;
    ret [text_entry ("File written successfully: " ++ result)]
  else if String.eqb n "list_files" then
    directory <- pure (getitem arguments "directory") ;;
    result <- be_list_files B directory ;;
    ret [text_entry (json_dumps result)]
  else if String.eqb n "call_api" then
    url <- pure (getitem arguments "url") ;;
    result <- be_call_api B url
                (get arguments "method" (JStr "GET"))
                (get arguments "headers" (JObj []))
                (get arguments "body" JNull) ;;
    ret [text_entry (json_dumps result)]
  else if String.eqb n "process_data" then
    data <- pure (getitem arguments "data") ;;
    operation <- pure (getitem arguments "operation") ;;
    result <- be_process_data B data operation ;;
    ret [text_entry (json_dumps result)]
  else
  match lm_guard self "lm_studio_generate" n with
  | Some lm => generate_branch lm arguments
  | None =>
  match lm_guard self "lm_studio_chat" n with
  | Some lm => chat_branch lm arguments
  | None =>
  match lm_guard self "lm_studio_list_models" n with
  | Some lm => list_models_branch lm
  | None =>
  match lm_guard self "lm_studio_test_connection" n with
  | Some lm => test_connection_branch lm
  | None => raise (unknown_tool n)
  end end end end.

(** [call_tool]: the [try] block and its [except Exception as e]. *)
Definition call_tool (self : t) (n : string) (arguments : dict)
  : M exn W envelope :=
  try_except (call_tool_body self n arguments)
             (fun e => ret [error_entry ("Error: " ++ exn_str e)]).

(** The backend operation that [call_tool] routes [n] to is reached with the
    arguments found in the bag, and raises [e]. *)
Inductive backend_raises (self : t) (arguments : dict)
  : string -> W -> exn -> W -> Prop :=
| raises_read_file : forall path w e w',
    lookup arguments "path" = Some path ->
    be_read_file B path w = (Raise e, w') ->
    backend_raises self arguments "read_file" w e w'
| raises_write_file : forall path content w e w',
    lookup arguments "path" = Some path ->
    lookup arguments "content" = Some content ->
    be_write_file B path content w = (Raise e, w') ->
    backend_raises self arguments "write_file" w e w'
| raises_list_files : forall directory w e w',
    lookup arguments "directory" = Some directory ->
    be_list_files B directory w = (Raise e, w') ->
    backend_raises self arguments "list_files" w e w'
| raises_call_api : forall url w e w',
    lookup arguments "url" = Some url ->
    be_call_api B url (get arguments "method" (JStr "GET"))
      (get arguments "headers" (JObj [])) (get arguments "body" JNull) w
    = (Raise e, w') ->
    backend_raises self arguments "call_api" w e w'
| raises_process_data : forall data operation w e w',
    lookup arguments "data" = Some data ->
    lookup arguments "operation" = Some operation ->
    be_process_data B data operation w = (Raise e, w') ->
    backend_raises self arguments "process_data" w e w'
| raises_generate_text : forall lm prompt w e w',
    lm_studio self = Some lm ->
    lookup arguments "prompt" = Some prompt ->
    be_generate_text B lm prompt (get arguments "model" JNull)
      (get arguments "max_tokens" (JInt 100))
      (get arguments "temperature" (JFloat (7 # 10))) w = (Raise e, w') ->
    backend_raises self arguments "lm_studio_generate" w e w'
| raises_chat_completion : forall lm messages w e w',
    lm_studio self = Some lm ->
    lookup arguments "messages" = Some messages ->
    be_chat_completion B lm messages (get arguments "model" JNull)
      (get arguments "temperature" (JFloat (7 # 10)))
      (get arguments "max_tokens" (JInt 500)) w = (Raise e, w') ->
    backend_raises self arguments "lm_studio_chat" w e w'
| raises_list_models : forall lm w e w',
    lm_studio self = Some lm ->
    be_list_models B lm w = (Raise e, w') ->
    backend_raises self arguments "lm_studio_list_models" w e w'
| raises_test_connection : forall lm w e w',
    lm_studio self = Some lm ->
    be_test_connection B lm w = (Raise e, w') ->
    backend_raises self arguments "lm_studio_test_connection" w e w'.

(** [list_resources] *)
Definition list_resources (self : t) : result (list Resource) :=
  rbind (py_get (config self) "resources" (JObj [])) (fun resources =>
  rbind (py_get resources "enabled" (JBool false)) (fun enabled =>
  if truthy enabled then
    rbind (py_get (config self) "resources" (JObj [])) (fun resources =>
    rbind (py_get resources "base_path" (JStr "./data")) (fun base_path =>
    Ok [ {| uri := "file://" ++ py_str base_path;
            res_name := "Data Directory";
            res_description := "Access to data files";
            mimeType := "application/json" |} ]))
  else Ok [])).

(** [read_resource]: the handler logs and re-raises. *)
Definition read_resource (uri : string) : M exn W string :=
  if startswith uri "file://"
  then be_read_file B (JStr (replace "file://" "" uri))
  else raise (ValueError ("Unsupported resource URI: " ++ uri)).

End Dispatch.

(** The names [call_tool] compares [name] with. *)
Definition file_api_data_names : list string :=
  ["read_file"; "write_file"; "list_files"; "call_api"; "process_data"].

Definition lm_studio_names : list string :=
  ["lm_studio_generate"; "lm_studio_chat"; "lm_studio_list_models";
   "lm_studio_test_connection"].

Definition str_of (v : json) : list string :=
  match v with
  | JStr s => [s]
  | _ => []
  end.

(** The names in the [required] list at the top of a tool's schema. *)
Definition required_fields (tool : Tool) : list string :=
  match lookup (inputSchema tool) "required" with
  | Some (JArr l) => flat_map str_of l
  | _ => []
  end.

(** The schema keeps [required] beside [properties], not inside it. *)
Definition required_at_top_level (schema : dict) : Prop :=
  match lookup schema "properties" with
  | None => True
  | Some (JObj props) => lookup props "required" = None
  | Some _ => False
  end.

(** The envelope that a failed subscript [arguments[k]] ends in. *)
Definition key_error_envelope (k : string) : envelope :=
  [error_entry ("Error: '" ++ k ++ "'")].

(** An [lm_studio_*] descriptor comes with an adapter. *)
Definition adapter_present (self : t) (tool : Tool) : Prop :=
  In (name tool) lm_studio_names -> exists lm, lm_studio self = Some lm.

(** A value that [in] cannot search. *)
Definition not_container (v : json) : bool :=
  match v with
  | JArr _ | JObj _ | JStr _ => false
  | _ => true
  end.

(** An [lm_studio_*] name needs the adapter; any other name does not. *)
Definition with_adapter (self : t) (tool : Tool) : bool :=
  negb (existsb (String.eqb (name tool)) lm_studio_names)
  || match lm_studio self with Some _ => true | None => false end.

(** What [list_tools] lets through, given which names are enabled. *)
Definition listed (self : t) (enabled : string -> bool) (tool : Tool) : bool :=
  enabled (name tool) && with_adapter self tool.

Definition catalog : list Tool :=
  [read_file_tool; write_file_tool; list_files_tool; call_api_tool;
   process_data_tool; lm_studio_generate_tool; lm_studio_chat_tool;
   lm_studio_list_models_tool; lm_studio_test_connection_tool].

End Server.

(* ================================================================== *)
(** ** Backends to run the server against *)
(* ================================================================== *)

Module Backend.
Import Py Server.

(** *** A recording backend

    Every operation notes that it was called, and with what, and then
    answers as [answer] says. *)
Record call : Type := Called { op : string; args : list json }.

Definition journal : Type := list call.

Definition record_json (answer : call -> result json) (c : call)
  : M exn journal json :=
  fun log => (answer c, log ++ [c]).

Definition record_str (answer : call -> result json) (c : call)
  : M exn journal string :=
  fun log =>
    (match answer c with
     | Ok (JStr s) => Ok s
     | Ok _ => Ok EmptyString
     | Raise e => Raise e
     end, log ++ [c]).

Definition recording (answer : call -> result json) : Backends journal :=
  {| be_read_file := fun p => record_str answer (Called "read_file" [p]);
     be_write_file := fun p c =>
       record_str answer (Called "write_file" [p; c]);
     be_list_files := fun d => record_json answer (Called "list_files" [d]);
     be_call_api := fun u m h b =>
       record_json answer (Called "call_api" [u; m; h; b]);
     be_process_data := fun d o =>
       record_json answer (Called "process_data" [d; o]);
     be_generate_text := fun _ p m k t =>
       record_json answer (Called "generate_text" [p; m; k; t]);
     be_chat_completion := fun _ ms m t k =>
       record_json answer (Called "chat_completion" [ms; m; t; k]);
     be_list_models := fun _ => record_json answer (Called "list_models" []);
     be_test_connection := fun _ =>
       record_json answer (Called "test_connection" []) |}.

(** *** Layering the modelled tools over other backends *)

Section Layers.

Context {W : Type}.

(** Run a call of the inner backends, leaving the added component alone. *)
Definition inner {V A} (m : M exn W A) : M exn (V * W) A :=
  fun vw =>
    match m (snd vw) with
    | (r, w') => (r, (fst vw, w'))
    end.

(** [self.file_tools] is a [FileTools] rooted at [base_path ft], acting on a
    file system. *)
Definition with_files (ft : FileTools.t) (B : Backends W)
  : Backends (FileTools.filesystem * W) :=
  {| be_read_file := fun p fw =>
       (FileTools.read_file ft p (fst fw), fw);
     be_write_file := fun p c fw =>
       match FileTools.write_file ft p c (fst fw) with
       | (r, fs') => (r, (fs', snd fw))
       end;
     be_list_files := fun d => inner (be_list_files B d);
     be_call_api := fun u m h b => inner (be_call_api B u m h b);
     be_process_data := fun d o => inner (be_process_data B d o);
     be_generate_text := fun lm p m k t =>
       inner (be_generate_text B lm p m k t);
     be_chat_completion := fun lm ms m t k =>
       inner (be_chat_completion B lm ms m t k);
     be_list_models := fun lm => inner (be_list_models B lm);
     be_test_connection := fun lm => inner (be_test_connection B lm) |}.

(** [self.lm_studio] talks to the gateway [gw] over a wire. *)
Definition on_wire {A} (m : M exn LMStudioTools.wire A)
  : M exn (LMStudioTools.wire * W) A :=
  fun lw =>
    match m (fst lw) with
    | (r, l') => (r, (l', snd lw))
    end.

Definition with_gateway (gw : LMStudioTools.gateway) (B : Backends W)
  : Backends (LMStudioTools.wire * W) :=
  {| be_read_file := fun p => inner (be_read_file B p);
     be_write_file := fun p c => inner (be_write_file B p c);
     be_list_files := fun d => inner (be_list_files B d);
     be_call_api := fun u m h b => inner (be_call_api B u m h b);
     be_process_data := fun d o => inner (be_process_data B d o);
     be_generate_text := fun lm p m k t =>
       on_wire (LMStudioTools.generate_text gw lm p m k t);
     be_chat_completion := fun lm ms m t k =>
       on_wire (LMStudioTools.chat_completion gw lm ms m t k);
     be_list_models := fun lm => on_wire (LMStudioTools.list_models gw lm);
     be_test_connection := fun lm =>
       on_wire (LMStudioTools.test_connection gw lm) |}.

(** [self.api_tools] sends its requests over a network. *)
Definition on_network {A} (m : M exn APITools.wire A)
  : M exn (APITools.wire * W) A :=
  fun nw =>
    match m (fst nw) with
    | (r, n') => (r, (n', snd nw))
    end.

Definition with_network (py_str : json -> string) (net : APITools.network)
    (B : Backends W) : Backends (APITools.wire * W) :=
  {| be_read_file := fun p => inner (be_read_file B p);
     be_write_file := fun p c => inner (be_write_file B p c);
     be_list_files := fun d => inner (be_list_files B d);
     be_call_api := fun u m h b =>
       on_network (APITools.call_api py_str net APITools.default u m h b);
     be_process_data := fun d o => inner (be_process_data B d o);
     be_generate_text := fun lm p m k t =>
       inner (be_generate_text B lm p m k t);
     be_chat_completion := fun lm ms m t k =>
       inner (be_chat_completion B lm ms m t k);
     be_list_models := fun lm => inner (be_list_models B lm);
     be_test_connection := fun lm => inner (be_test_connection B lm) |}.

End Layers.

(** A plain rendering of values, to run the server on examples: strings as
    they are, integers in decimal, anything else by its type name. *)
Definition show (v : json) : string :=
  match v with
  | JStr s => s
  | JInt z => str_of_Z z
  | JNull => "None"
  | JBool true => "True"
  | JBool false => "False"
  | _ => "<" ++ type_name v ++ ">"
  end.

End Backend.

(* ================================================================== *)
(** ** Deployments used in the examples *)
(* ================================================================== *)

Module Scenario.
Import Py Server.

(** A configuration that enables the given tools and nothing else. *)
Definition enabling (tools : list string) : json :=
  JObj [("tools", JObj [("enabled", strs tools)])].

(** Only [read_file] is enabled; no LM Studio adapter. *)
Definition read_only : Server.t :=
  {| config := enabling ["read_file"]; lm_studio := None |}.

(** The two file tools are enabled. *)
Definition files_only : Server.t :=
  {| config := enabling ["read_file"; "write_file"]; lm_studio := None |}.

(** Every LM Studio tool is enabled and the adapter is there. *)
Definition with_inference : Server.t :=
  {| config := enabling ["lm_studio_generate"; "lm_studio_chat";
                         "lm_studio_list_models";
                         "lm_studio_test_connection"];
     lm_studio := Some {| LMStudioTools.base_url :=
                            "http://localhost:1234" |} |}.

(** Only [call_api] is enabled. *)
Definition api_only : Server.t :=
  {| config := enabling ["call_api"]; lm_studio := None |}.

(** The file backend is rooted at [/srv/app]; beside it lies
    [/srv/app-private]. *)
Definition app_root : FileTools.t :=
  {| FileTools.base_path := ["srv"; "app"] |}.

Definition disk : FileTools.filesystem :=
  [ (["srv"], FileTools.Dir);
    (["srv"; "app"], FileTools.Dir);
    (["srv"; "app"; "readme.txt"], FileTools.File "hello");
    (["srv"; "app-private"], FileTools.Dir);
    (["srv"; "app-private"; "key.txt"], FileTools.File "secret") ].

(** Backends whose operations succeed with an empty payload. *)
Definition quiet : Backends Backend.journal :=
  Backend.recording (fun _ => Ok (JObj [])).

Definition local_adapter : LMStudioTools.t :=
  {| LMStudioTools.base_url := "http://localhost:1234" |}.

Definition ok_response (v : json) : LMStudioTools.response :=
  {| LMStudioTools.status_code := 200;
     LMStudioTools.body := Ok v;
     LMStudioTools.status_error := EmptyString |}.

Definition model (id : string) : json :=
  JObj [("id", JStr id); ("object", JStr "model")].

(** A gateway that lists the given models and completes every prompt. *)
Definition serving (ids : list string) : LMStudioTools.gateway :=
  fun _ req =>
    match req with
    | LMStudioTools.GET _ =>
        LMStudioTools.Responds
          (ok_response (JObj [("data", JArr (map model ids))]))
    | LMStudioTools.POST _ _ =>
        LMStudioTools.Responds
          (ok_response
             (JObj [("choices",
                     JArr [JObj [("text", JStr "done");
                                 ("finish_reason", JStr "stop")]]);
                    ("usage", JObj [("total_tokens", JInt 7)])]))
    end.

(** A decoder that knows the empty object and fails on any other text. *)
Definition loads_braces (text : string) : option json :=
  if String.eqb text "{}" then Some (JObj []) else None.

(** A network on which every request is answered 500 with a text body. *)
Definition failing_upstream : APITools.network :=
  fun _ _ =>
    APITools.Responds
      {| APITools.status_code := 500;
         APITools.headers := [("content-type", JStr "text/plain")];
         APITools.text := "Internal Server Error";
         APITools.body := None |}.



(** A gateway nobody listens on. *)
Definition unreachable : LMStudioTools.gateway :=
  fun _ _ => LMStudioTools.ConnectFails.

End Scenario.

(* ================================================================== *)
(** ** Properties *)
(* ================================================================== *)

Module DataToolsFacts.
Import Py DataTools.

Lemma filter_all_true {A} (f : A -> bool) (l : list A) :
  (forall x, f x = true) -> filter f l = l.
Proof.
  intros Hf. induction l as [|x l IH]; simpl.
  - reflexivity.
  - rewrite Hf, IH. reflexivity.
Qed.

(** What the text of [_filter_data] and [_evaluate_condition] says: a
    condition without [==] is true of every item, so filtering a list by it
    gives the list back, item for item. *)
Lemma filter_text_keeps_all :
  forall (py_str : json -> string) (items : list json) (condition : string),
    contains "==" condition = false ->
    (forall item, _evaluate_condition py_str item condition = true) /\
    _filter_data py_str (JArr items) (Some condition) = JArr items.
Proof.
  intros py_str items condition Hno.
  assert (Hall : forall item, _evaluate_condition py_str item condition = true).
  { intros item. unfold _evaluate_condition.
    destruct item; try reflexivity. rewrite Hno. reflexivity. }
  split; [exact Hall|].
  unfold _filter_data.
  destruct (negb (String.eqb condition "")); [|reflexivity].
  f_equal. apply filter_all_true. exact Hall.
Qed.

(** The assignment of lines 86 to 90 is not a statement of the language: the
    recogniser stops at the [else] of line 89. *)
Lemma lines_86_90_rejected : Grammar.check lines_86_90 = Grammar.Rejected 89.
Proof. vm_compute. reflexivity. Qed.

(** With the conditional of line 89 between parentheses the statement
    passes. *)
Example lines_86_90_parenthesised :
  Grammar.check
    [(86%nat, "            values = [");
     (87%nat, "                item.get(field) if isinstance(item, dict) else item");
     (88%nat, "                for item in data");
     (89%nat, "                if (item.get(field) is not None if isinstance(item, dict) else item is not None)");
     (90%nat, "            ]")]
  = Grammar.Passes.
Proof. vm_compute. reflexivity. Qed.

Lemma compile_module_raises :
  compile_module
  = Raise (SyntaxError "invalid syntax (data_tools.py, line 89)").
Proof. vm_compute. reflexivity. Qed.

(** C8 on the code: the module that holds [_filter_data] does not compile,
    because of lines 86 to 90 of [_aggregate_data], so importing it raises
    [SyntaxError] and no filter call returns, whatever the items and the
    condition; the text of the two methods, taken alone, keeps every item
    under a condition without [==]. *)
Theorem filter_call_raises_syntax_error :
  forall (py_str : json -> string) (items : list json) (condition : string),
    after_import (Ok (_filter_data py_str (JArr items) (Some condition)))
    = Raise (SyntaxError "invalid syntax (data_tools.py, line 89)") /\
    (contains "==" condition = false ->
     _filter_data py_str (JArr items) (Some condition) = JArr items).
Proof.
  intros py_str items condition. split.
  - unfold after_import. rewrite compile_module_raises. reflexivity.
  - intros Hno. apply filter_text_keeps_all, Hno.
Qed.

Lemma filter_call_raises_syntax_error_witness :
  after_import
    (Ok (_filter_data Backend.show
           (JArr [JObj [("age", JInt 30)]; JObj [("age", JInt 41)]; JStr "x"])
           (Some "age > 35")))
  = Raise (SyntaxError "invalid syntax (data_tools.py, line 89)") /\
  _filter_data Backend.show
    (JArr [JObj [("age", JInt 30)]; JObj [("age", JInt 41)]; JStr "x"])
    (Some "age > 35")
  = JArr [JObj [("age", JInt 30)]; JObj [("age", JInt 41)]; JStr "x"].
Proof.
  destruct (filter_call_raises_syntax_error Backend.show
              [JObj [("age", JInt 30)]; JObj [("age", JInt 41)]; JStr "x"]
              "age > 35") as [Hraise Hkeep].
  split; [exact Hraise | apply Hkeep; reflexivity].
Defined.

End DataToolsFacts.

Module HelpersFacts.
Import Py Helpers Server.

Lemma catalog_required_at_top_level :
  Forall (fun tool => required_at_top_level (inputSchema tool)) catalog.
Proof. repeat constructor. Qed.

Lemma validate_without_nested_required :
  forall (tool_name : string) (arguments schema : dict),
    required_at_top_level schema ->
    validate_tool_input tool_name arguments schema = Ok true.
Proof.
  intros tool_name arguments schema Htop.
  unfold validate_tool_input, required_at_top_level, get in *.
  destruct (lookup schema "properties") as [props|]; [|reflexivity].
  destruct props; try contradiction.
  simpl. unfold get. rewrite Htop. reflexivity.
Qed.

(** Every descriptor of the server is accepted with any arguments. *)
Lemma validate_tool_input_vacuous_on_catalog :
  forall tool arguments,
    In tool catalog ->
    validate_tool_input (name tool) arguments (inputSchema tool) = Ok true.
Proof.
  intros tool arguments Hin.
  apply validate_without_nested_required.
  exact (proj1 (Forall_forall _ _) catalog_required_at_top_level tool Hin).
Qed.

(** C9: for a schema that keeps [required] at its top level, next to
    [properties], as the nine descriptors of the server do,
    [validate_tool_input] looks for the required fields at
    [schema["properties"]["required"]], finds none, and returns [True] for
    every tool name and every argument bag. *)
Theorem validate_tool_input_accepts_everything :
  forall (tool_name : string) (arguments schema : dict),
    required_at_top_level schema ->
    validate_tool_input tool_name arguments schema = Ok true.
Proof. exact validate_without_nested_required. Qed.

Lemma validate_tool_input_accepts_everything_witness :
  required_fields write_file_tool = ["path"; "content"] /\
  validate_tool_input "write_file" [] (inputSchema write_file_tool) = Ok true.
Proof.
  split; [reflexivity|].
  apply (validate_tool_input_accepts_everything "write_file" []
           (inputSchema write_file_tool)).
  reflexivity.
Defined.

(** Where [required] does sit under [properties], the helper rejects. *)
Example validate_tool_input_nested_required :
  validate_tool_input "read_file" []
    [("properties", JObj [("required", strs ["path"])])] = Ok false.
Proof. reflexivity. Qed.

End HelpersFacts.

Module ConstructionFacts.
Import Py Helpers Server.

Section Defaults.

Variable json_loads : string -> option json.
Variable env : option string.
Variable py_str : json -> string.

Lemma init_empty_config :
  forall config_path file,
    load_config json_loads file = JObj [] ->
    init json_loads env config_path file
    = Ok {| config := JObj []; lm_studio := None |}.
Proof.
  intros config_path file Hload. unfold init.
  destruct config_path as [p|]; [|reflexivity].
  destruct (negb (String.eqb p "")); [|reflexivity].
  rewrite Hload. reflexivity.
Qed.

(** What the body of [__init__] does with a configuration file that is
    absent or unparseable: it returns a server with the empty configuration,
    in which no tool name is enabled and no tool and no resource is
    listed. *)
Lemma init_body_exposes_nothing :
  forall (config_path : option string) (file : config_file),
    (file = Absent \/
     exists text, file = Content text /\ malformed json_loads text) ->
    exists srv,
      init json_loads env config_path file = Ok srv /\
      (forall tool_name, _is_tool_enabled srv tool_name = Ok false) /\
      list_tools srv = Ok [] /\
      list_resources py_str srv = Ok [].
Proof.
  intros config_path file Hfile.
  exists {| config := JObj []; lm_studio := None |}.
  split.
  - apply init_empty_config.
    destruct Hfile as [-> | [text [-> Hbad]]]; simpl.
    + reflexivity.
    + unfold malformed in Hbad. rewrite Hbad. reflexivity.
  - repeat split; reflexivity.
Qed.

End Defaults.

(** C7 on the code: constructing a server starts with the import of
    [mcp_server], whose line 20 imports [data_tools.py]; that file does not
    compile, so construction raises [SyntaxError] whatever the
    configuration file, absent, unparseable or valid.  The body of
    [__init__], taken alone, would return the server that exposes
    nothing. *)
Theorem construction_raises_syntax_error :
  forall (json_loads : string -> option json) (env : option string)
         (py_str : json -> string)
         (config_path : option string) (file : config_file),
    construct json_loads env config_path file
    = Raise (SyntaxError "invalid syntax (data_tools.py, line 89)") /\
    ((file = Absent \/
      exists text, file = Content text /\ malformed json_loads text) ->
     exists srv,
       init json_loads env config_path file = Ok srv /\
       (forall tool_name, _is_tool_enabled srv tool_name = Ok false) /\
       list_tools srv = Ok [] /\
       list_resources py_str srv = Ok []).
Proof.
  intros json_loads env py_str config_path file. split.
  - unfold construct, imports.
    assert (H : DataTools.compile_module
                = Raise (SyntaxError "invalid syntax (data_tools.py, line 89)"))
      by (vm_compute; reflexivity).
    rewrite H. reflexivity.
  - apply init_body_exposes_nothing.
Qed.

Lemma construction_raises_syntax_error_witness :
  construct Scenario.loads_braces None (Some "config/mcp_config.json")
    (Content "{ tools: ")
  = Raise (SyntaxError "invalid syntax (data_tools.py, line 89)") /\
  exists srv,
    init Scenario.loads_braces None (Some "config/mcp_config.json")
         (Content "{ tools: ") = Ok srv /\
    (forall tool_name, _is_tool_enabled srv tool_name = Ok false) /\
    list_tools srv = Ok [] /\
    list_resources Backend.show srv = Ok [].
Proof.
  destruct (construction_raises_syntax_error Scenario.loads_braces None
              Backend.show (Some "config/mcp_config.json")
              (Content "{ tools: ")) as [Hraise Hbody].
  split; [exact Hraise|].
  apply Hbody. right. exists "{ tools: ". split; reflexivity.
Defined.

End ConstructionFacts.

Module DispatchFacts.
Import Py Server.

Section Dispatch.

Context {W : Type}.
Variable B : Backends W.
Variable py_str : json -> string.
Variable json_dumps : json -> string.

Local Abbreviation call_tool := (call_tool B py_str json_dumps).
Local Abbreviation call_tool_body := (call_tool_body B py_str json_dumps).

(** A handler that returns makes the whole [try] statement return. *)
Lemma try_except_returns {E A} (m : M E W A) (h : E -> A) (w : W) :
  exists a w', try_except (E' := exn) m (fun e => ret (h e)) w = (Ok a, w').
Proof.
  unfold try_except, ret. destruct (m w) as [[a|e] w']; eauto.
Qed.

Lemma call_tool_of_body_raise self n arguments w e w' :
  call_tool_body self n arguments w = (Raise e, w') ->
  call_tool self n arguments w
  = (Ok [error_entry ("Error: " ++ exn_str e)], w').
Proof.
  intros Hbody. unfold Server.call_tool, try_except. rewrite Hbody.
  reflexivity.
Qed.

Lemma call_tool_of_body_ok self n arguments w env w' :
  call_tool_body self n arguments w = (Ok env, w') ->
  call_tool self n arguments w = (Ok env, w').
Proof.
  intros Hbody. unfold Server.call_tool, try_except. rewrite Hbody.
  reflexivity.
Qed.

Ltac run_body :=
  unfold Server.call_tool_body, generate_branch, chat_branch,
    list_models_branch, test_connection_branch, lm_guard,
    bind, pure, lift, raise, ret, getitem; simpl.

Lemma body_raises_with_backend self n arguments w e w' :
  backend_raises B self arguments n w e w' ->
  call_tool_body self n arguments w = (Raise e, w').
Proof.
  intros H; destruct H; run_body;
    repeat match goal with
           | H : lookup _ _ = Some _ |- _ => rewrite H; clear H
           | H : lm_studio _ = Some _ |- _ => rewrite H; clear H
           end;
    match goal with H : _ = (Raise _, _) |- _ => rewrite H end;
    reflexivity.
Qed.

(** C1: [call_tool] returns an envelope for every tool name and argument
    bag and never raises; and when the backend operation it routes to raises
    a failure [e], the envelope is the single entry with [isError] true and
    text ["Error: " + str(e)]. *)
Theorem call_tool_never_raises_and_wraps_failures :
  forall (self : Server.t) (n : string) (arguments : dict) (w : W),
    (exists env w', call_tool self n arguments w = (Ok env, w')) /\
    (forall e w',
        backend_raises B self arguments n w e w' ->
        call_tool self n arguments w
        = (Ok [ {| text := "Error: " ++ exn_str e; isError := Some true |} ],
           w')).
Proof.
  intros self n arguments w. split.
  - unfold Server.call_tool. apply try_except_returns.
  - intros e w' Hraises.
    apply call_tool_of_body_raise, body_raises_with_backend, Hraises.
Qed.

(** A name that matches no branch ends in the [else] of the chain. *)
Lemma unknown_name_body self n arguments w :
  ~ In n file_api_data_names ->
  (lm_studio self = None \/ ~ In n lm_studio_names) ->
  call_tool_body self n arguments w = (Raise (unknown_tool n), w).
Proof.
  intros Hfile Hlm.
  assert (Hne : forall k, In k file_api_data_names -> String.eqb n k = false).
  { intros k Hk. apply String.eqb_neq. intros ->. exact (Hfile Hk). }
  unfold Server.call_tool_body.
  rewrite !Hne by (simpl; tauto).
  assert (Hguard : forall k, In k lm_studio_names -> lm_guard self k n = None).
  { intros k Hk. unfold lm_guard.
    destruct (String.eqb n k) eqn:Heq; [|reflexivity].
    apply String.eqb_eq in Heq. subst k.
    destruct Hlm as [Hnone | Hout]; [exact Hnone | contradiction]. }
  rewrite !Hguard by (simpl; tauto).
  reflexivity.
Qed.

(** C10: without the LM Studio adapter, each of the four [lm_studio_*] names
    gets the single error entry ["Error: Unknown tool: " + name], with no
    backend touched: the same envelope as for a name that matches no branch
    of the dispatch at all. *)
Theorem lm_studio_names_unknown_without_adapter :
  forall (self : Server.t) (arguments : dict) (w : W),
    lm_studio self = None ->
    (forall n, In n lm_studio_names ->
       call_tool self n arguments w
       = (Ok [error_entry ("Error: Unknown tool: " ++ n)], w)) /\
    (forall n, ~ In n file_api_data_names -> ~ In n lm_studio_names ->
       call_tool self n arguments w
       = (Ok [error_entry ("Error: Unknown tool: " ++ n)], w)).
Proof.
  intros self arguments w Hnone. split.
  - intros n Hn.
    apply (call_tool_of_body_raise self n arguments w (unknown_tool n) w).
    apply unknown_name_body; [|left; exact Hnone].
    intros Hfile. simpl in Hn, Hfile.
    repeat match goal with H : _ \/ _ |- _ => destruct H end;
      try contradiction; subst; discriminate.
  - intros n Hfile Hlm.
    apply (call_tool_of_body_raise self n arguments w (unknown_tool n) w).
    apply unknown_name_body; [exact Hfile | right; exact Hlm].
Qed.

End Dispatch.

(** *** What [list_tools] lists *)

Lemma append_if_enabled_inv self tool tools tools' x :
  append_if_enabled self tool tools = Ok tools' ->
  In x tools' ->
  In x tools \/ (x = tool /\ _is_tool_enabled self (name tool) = Ok true).
Proof.
  unfold append_if_enabled.
  destruct (_is_tool_enabled self (name tool)) as [[|]|e]; simpl;
    intros Heq Hin; inversion Heq; subst.
  - apply in_app_or in Hin. destruct Hin as [Hin | [<- | []]]; auto.
  - auto.
Qed.

Lemma append_if_lm_enabled_inv self tool tools tools' x :
  append_if_lm_enabled self tool tools = Ok tools' ->
  In x tools' ->
  In x tools \/
  (x = tool /\ _is_tool_enabled self (name tool) = Ok true /\
   exists lm, lm_studio self = Some lm).
Proof.
  unfold append_if_lm_enabled.
  destruct (lm_studio self) as [lm|] eqn:Hlm; intros Heq Hin.
  - destruct (append_if_enabled_inv _ _ _ _ _ Heq Hin) as [H | [H1 H2]];
      eauto.
  - inversion Heq; subst. auto.
Qed.

(** Every listed descriptor is one of the nine, its name is enabled in the
    configuration, and an [lm_studio_*] descriptor needs the adapter. *)
Lemma list_tools_sound self tools tool :
  list_tools self = Ok tools ->
  In tool tools ->
  In tool catalog /\
  _is_tool_enabled self (name tool) = Ok true /\
  adapter_present self tool.
Proof.
  unfold list_tools. intros Hlist Hin.
  repeat match type of Hlist with
         | rbind ?r _ = Ok _ =>
             let t := fresh "t" in
             let H := fresh "H" in
             destruct r as [t|] eqn:H; simpl in Hlist; [|discriminate]
         end.
  repeat match goal with
         | Happ : append_if_lm_enabled _ _ _ = Ok ?l, Hx : In _ ?l |- _ =>
             destruct (append_if_lm_enabled_inv _ _ _ _ _ Happ Hx)
               as [? | [-> [? ?]]]; clear Happ Hx
         | Happ : append_if_enabled _ _ _ = Ok ?l, Hx : In _ ?l |- _ =>
             destruct (append_if_enabled_inv _ _ _ _ _ Happ Hx)
               as [? | [-> ?]]; clear Happ Hx
         end;
    try match goal with H : In _ [] |- _ => destruct H end;
    (split; [simpl; tauto | split; [assumption|]]);
    unfold adapter_present; simpl; intros Hn;
    try assumption;
    repeat match goal with H : _ \/ _ |- _ => destruct H end;
    try contradiction; discriminate.
Qed.

(** A name that the configuration does not enable is not listed. *)
Lemma list_tools_omits_disabled self tools tool :
  list_tools self = Ok tools ->
  _is_tool_enabled self (name tool) <> Ok true ->
  ~ In tool tools.
Proof.
  intros Hlist Hoff Hin.
  destruct (list_tools_sound _ _ _ Hlist Hin) as [_ [Hon _]].
  exact (Hoff Hon).
Qed.

(** *** Argument bags that lack a required field *)

Section MissingFields.

Context {W : Type}.
Variable B : Backends W.
Variable py_str : json -> string.
Variable json_dumps : json -> string.

Local Abbreviation call_tool := (call_tool B py_str json_dumps).

Lemma has_key_false arguments k :
  has_key arguments k = false -> lookup arguments k = None.
Proof.
  unfold has_key. destruct (lookup arguments k); [discriminate|reflexivity].
Qed.

Lemma has_key_none arguments k :
  lookup arguments k = None -> has_key arguments k = false.
Proof. unfold has_key. intros ->. reflexivity. Qed.

Ltac run_call :=
  unfold Server.call_tool, try_except, Server.call_tool_body,
    generate_branch, chat_branch, lm_guard,
    bind, pure, lift, raise, ret, getitem, key_error_envelope; simpl.

Ltac first_missing k Hk :=
  exists k; split; [simpl; tauto | split; [apply has_key_none, Hk|]];
  run_call; rewrite ?Hk; reflexivity.

(** Every required field other than [method] of [call_api] is read by
    subscript.  For a listed tool and a bag that lacks such a field, the
    subscript on the first one missing raises [KeyError]; the envelope is
    the single error entry ["Error: '<field>'"], and the world is as before:
    no backend ran. *)
Lemma missing_subscripted_field_is_key_error :
  forall (self : Server.t) (tools : list Tool) (tool : Tool)
         (field : string) (arguments : dict) (w : W),
    list_tools self = Ok tools ->
    In tool tools ->
    In field (required_fields tool) ->
    has_key arguments field = false ->
    ~ (name tool = "call_api" /\ field = "method") ->
    exists k,
      In k (required_fields tool) /\
      has_key arguments k = false /\
      call_tool self (name tool) arguments w = (Ok (key_error_envelope k), w).
Proof.
  intros self tools tool field arguments w Hlist Hin Hreq Hmiss Hnot.
  destruct (list_tools_sound _ _ _ Hlist Hin) as [Hcat [_ Hlm]].
  apply has_key_false in Hmiss.
  simpl in Hcat.
  repeat match goal with H : _ \/ _ |- _ => destruct H end;
    try contradiction; subst tool; simpl in Hreq;
    repeat match goal with H : _ \/ _ |- _ => destruct H end;
    try contradiction; subst field.
  - first_missing "path" Hmiss.
  - first_missing "path" Hmiss.
  - destruct (lookup arguments "path") as [p|] eqn:Hp.
    + exists "content". split; [simpl; tauto|].
      split; [apply has_key_none, Hmiss|].
      run_call. rewrite Hp, Hmiss. reflexivity.
    + first_missing "path" Hp.
  - first_missing "directory" Hmiss.
  - first_missing "url" Hmiss.
  - exfalso. apply Hnot. split; reflexivity.
  - first_missing "data" Hmiss.
  - destruct (lookup arguments "data") as [d|] eqn:Hd.
    + exists "operation". split; [simpl; tauto|].
      split; [apply has_key_none, Hmiss|].
      run_call. rewrite Hd, Hmiss. reflexivity.
    + first_missing "data" Hd.
  - destruct Hlm as [lm Hsome]; [simpl; tauto|].
    exists "prompt". split; [simpl; tauto|].
    split; [apply has_key_none, Hmiss|].
    run_call. rewrite Hsome. run_call. rewrite Hmiss. reflexivity.
  - destruct Hlm as [lm Hsome]; [simpl; tauto|].
    exists "messages". split; [simpl; tauto|].
    split; [apply has_key_none, Hmiss|].
    run_call. rewrite Hsome. run_call. rewrite Hmiss. reflexivity.
Qed.

End MissingFields.

(** *** The dispatcher at work *)

Lemma call_tool_never_raises_and_wraps_failures_witness :
  call_tool (Backend.with_files Scenario.app_root Scenario.quiet)
    Backend.show Backend.show Scenario.read_only
    "read_file" [("path", JStr "missing.txt")] (Scenario.disk, [])
  = (Ok [error_entry "Error: File not found: missing.txt"],
     (Scenario.disk, [])).
Proof.
  apply (proj2 (call_tool_never_raises_and_wraps_failures
                  (Backend.with_files Scenario.app_root Scenario.quiet)
                  Backend.show Backend.show Scenario.read_only
                  "read_file" [("path", JStr "missing.txt")]
                  (Scenario.disk, []))
               (FileNotFoundError "File not found: missing.txt")
               (Scenario.disk, [])).
  apply raises_read_file with (path := JStr "missing.txt"); reflexivity.
Defined.

Lemma lm_studio_names_unknown_without_adapter_witness :
  call_tool Scenario.quiet Backend.show Backend.show Scenario.read_only
    "lm_studio_generate" [("prompt", JStr "hello")] []
  = (Ok [error_entry "Error: Unknown tool: lm_studio_generate"], []).
Proof.
  apply (proj1 (lm_studio_names_unknown_without_adapter Scenario.quiet
                  Backend.show Backend.show Scenario.read_only
                  [("prompt", JStr "hello")] [] eq_refl)
               "lm_studio_generate").
  simpl. tauto.
Defined.

Lemma missing_subscripted_field_is_key_error_witness :
  exists k,
    In k (required_fields write_file_tool) /\
    has_key [("path", JStr "a.txt")] k = false /\
    call_tool Scenario.quiet Backend.show Backend.show Scenario.files_only
      "write_file" [("path", JStr "a.txt")] []
    = (Ok (key_error_envelope k), []).
Proof.
  apply (missing_subscripted_field_is_key_error Scenario.quiet
           Backend.show Backend.show Scenario.files_only
           [read_file_tool; write_file_tool] write_file_tool "content"
           [("path", JStr "a.txt")] []).
  - reflexivity.
  - simpl. tauto.
  - simpl. tauto.
  - reflexivity.
  - intros [H _]. discriminate H.
Defined.

(** C3 on the code: [call_api] is listed and its schema (line 153) requires
    [url] and [method]; the handler (line 292) reads [method] with
    [arguments.get("method", "GET")], so for a bag without [method] the
    backend is called, with ["GET"], and the envelope reports no error. *)
Theorem call_api_without_method_reaches_backend :
  list_tools Scenario.api_only = Ok [call_api_tool] /\
  In "method" (required_fields call_api_tool) /\
  has_key [("url", JStr "http://example.test/")] "method" = false /\
  call_tool Scenario.quiet Backend.show Backend.show Scenario.api_only
    "call_api" [("url", JStr "http://example.test/")] []
  = (Ok [ {| text := Backend.show (JObj []); isError := None |} ],
     [Backend.Called "call_api"
        [JStr "http://example.test/"; JStr "GET"; JObj []; JNull]]).
Proof.
  split; [reflexivity|].
  split; [simpl; tauto|].
  split; reflexivity.
Qed.

(** C2 on the code: only [read_file] is enabled and only its descriptor is
    listed, yet [call_tool] routes ["write_file"] to the file backend, which
    writes the file; the envelope is the success entry. *)
Theorem write_file_runs_though_not_enabled :
  list_tools Scenario.read_only = Ok [read_file_tool] /\
  _is_tool_enabled Scenario.read_only "write_file" = Ok false /\
  call_tool (Backend.with_files Scenario.app_root Scenario.quiet)
    Backend.show Backend.show Scenario.read_only
    "write_file" [("path", JStr "notes.txt"); ("content", JStr "hi")]
    (Scenario.disk, [])
  = (Ok [ {| text := "File written successfully: "
                     ++ "Successfully wrote to notes.txt";
             isError := None |} ],
     (FileTools.put Scenario.disk ["srv"; "app"; "notes.txt"]
        (FileTools.File "hi"), [])).
Proof. repeat split. Qed.

End DispatchFacts.

Module FileToolsFacts.
Import Py FileTools.

(** What the containment test lets through has the root's string as a
    prefix of its resolved string. *)
Lemma read_file_ok_inside self fp fs content :
  read_file self (JStr fp) fs = Ok content ->
  startswith (path_str (resolve (join (base_path self) fp)))
             (path_str (resolve (base_path self))) = true.
Proof.
  unfold read_file, inside.
  destruct (startswith _ _); simpl; [reflexivity | discriminate].
Qed.

(** A path whose resolved string does not start with the root's string is
    refused before the file system is consulted. *)
Lemma read_file_refuses_non_prefix self fp fs :
  inside self (join (base_path self) fp) = false ->
  read_file self (JStr fp) fs = Raise PathEscape.
Proof. unfold read_file. intros ->. reflexivity. Qed.

Lemma write_file_refuses_non_prefix self fp content fs :
  inside self (join (base_path self) fp) = false ->
  write_file self (JStr fp) content fs = (Raise PathEscape, fs).
Proof. unfold write_file. intros ->. reflexivity. Qed.

Example read_etc_passwd_refused :
  read_file Scenario.app_root (JStr "../../etc/passwd") Scenario.disk
  = Raise PathEscape.
Proof. reflexivity. Qed.

Example read_absolute_refused :
  read_file Scenario.app_root (JStr "/etc/passwd") Scenario.disk
  = Raise PathEscape.
Proof. reflexivity. Qed.

Example write_then_read :
  read_file Scenario.app_root (JStr "notes.txt")
    (snd (write_file Scenario.app_root (JStr "notes.txt") (JStr "hi")
            Scenario.disk))
  = Ok "hi".
Proof. reflexivity. Qed.

(** C4 on the code: with root [/srv/app], the path
    [../app-private/key.txt] resolves to [/srv/app-private/key.txt], which
    is not below the root; its string starts with ["/srv/app"], so the test
    passes: [read_file] returns the file's content and [write_file]
    overwrites it. *)
Theorem sibling_directory_escapes_root :
  resolve (join (base_path Scenario.app_root) "../app-private/key.txt")
  = ["srv"; "app-private"; "key.txt"] /\
  is_descendant (base_path Scenario.app_root)
    ["srv"; "app-private"; "key.txt"] = false /\
  read_file Scenario.app_root (JStr "../app-private/key.txt") Scenario.disk
  = Ok "secret" /\
  write_file Scenario.app_root (JStr "../app-private/key.txt")
    (JStr "overwritten") Scenario.disk
  = (Ok "Successfully wrote to ../app-private/key.txt",
     put Scenario.disk ["srv"; "app-private"; "key.txt"]
       (File "overwritten")).
Proof. repeat split. Qed.

End FileToolsFacts.

Module LMStudioFacts.
Import Py LMStudioTools.



(** Once the model is chosen, exactly one more request goes out. *)
Lemma generate_text_wire gw self prompt model max_tokens temperature
      log id log1 :
  choose_model gw self model log = (Ok id, log1) ->
  snd (generate_text gw self prompt model max_tokens temperature log)
  = log1 ++ [POST (completions_url self)
               (JObj [("model", id); ("prompt", prompt);
                      ("max_tokens", max_tokens);
                      ("temperature", temperature)])].
Proof.
  intros Hmodel.
  unfold generate_text, try_except, bind. rewrite Hmodel.
  unfold send.
  destruct (gw log1 _) as [|e|resp]; try reflexivity.
  unfold raise_for_status.
  destruct (is_success resp); [|reflexivity].
  unfold ret, pure, lift.
  destruct (body resp) as [result|e]; [|reflexivity].
  destruct (first_choice result "text" (JStr "")); [|reflexivity].
  destruct (py_get result "usage" (JObj [])); [|reflexivity].
  destruct (first_choice result "finish_reason" (JStr "")); reflexivity.
Qed.



(** *** The health probe *)

Lemma model_ids_objects (ms : list dict) :
  model_ids (map JObj ms) = Ok (map id_of ms).
Proof.
  induction ms as [|m ms IH]; simpl.
  - reflexivity.
  - rewrite IH. reflexivity.
Qed.

(** [list_models] sends one request, whatever comes of it. *)
Lemma list_models_wire gw self log :
  snd (list_models gw self log) = log ++ [GET (models_url self)].
Proof.
  unfold list_models, try_except, bind, send.
  destruct (gw log _) as [|e|resp]; try reflexivity.
  unfold raise_for_status.
  destruct (is_success resp); [|reflexivity].
  unfold ret, pure, lift.
  destruct (body resp) as [v|e]; [|reflexivity].
  destruct (py_get v "data" (JArr [])); reflexivity.
Qed.

Lemma test_connection_of_failure gw self log e log' :
  list_models gw self log = (Raise e, log') ->
  test_connection gw self log
  = (Ok (JObj [("status", JStr "disconnected");
               ("url", JStr (base_url self));
               ("error", JStr (exn_str e))]), log').
Proof.
  intros H. unfold test_connection, try_except, bind. rewrite H.
  reflexivity.
Qed.

Lemma test_connection_returns gw self log :
  exists status,
    test_connection gw self log
    = (Ok (JObj status), log ++ [GET (models_url self)]).
Proof.
  pose proof (list_models_wire gw self log) as Hwire.
  unfold test_connection, try_except, bind, lift, ret.
  destruct (list_models gw self log) as [[models|e] log']; simpl in Hwire;
    subst log'; [|eauto].
  destruct (py_len models); [|eauto].
  destruct (py_iter models) as [items|]; [|eauto].
  destruct (model_ids items); eauto.
Qed.

(** C6: [test_connection] returns a record for every behaviour of the
    gateway and never raises.  When the connection fails, the record is
    [{"status": "disconnected", "url": ..., "error": ...}] with the message
    of [list_models]; when the request fails in any other way the record is
    the same with the text of that failure; when the gateway answers with
    success and lists [N] models, the record is
    [{"status": "connected", "url": ..., "models_count": N, "models": ids}]
    with the [N] ids in the order listed. *)
Theorem test_connection_never_raises :
  forall (gw : gateway) (self : t) (log : wire),
    (exists status,
        test_connection gw self log
        = (Ok (JObj status), log ++ [GET (models_url self)])) /\
    (gw log (GET (models_url self)) = ConnectFails ->
     test_connection gw self log
     = (Ok (JObj [("status", JStr "disconnected");
                  ("url", JStr (base_url self));
                  ("error",
                   JStr "Cannot connect to LM Studio. Make sure it's running.")]),
        log ++ [GET (models_url self)])) /\
    (forall e,
        gw log (GET (models_url self)) = Fails e ->
        test_connection gw self log
        = (Ok (JObj [("status", JStr "disconnected");
                     ("url", JStr (base_url self));
                     ("error", JStr (exn_str e))]),
           log ++ [GET (models_url self)])) /\
    (forall resp d models,
        gw log (GET (models_url self)) = Responds resp ->
        is_success resp = true ->
        body resp = Ok (JObj d) ->
        lookup d "data" = Some (JArr (map JObj models)) ->
        test_connection gw self log
        = (Ok (JObj [("status", JStr "connected");
                     ("url", JStr (base_url self));
                     ("models_count", JInt (Z.of_nat (List.length models)));
                     ("models",
                      JArr (map (fun m => get m "id" (JStr "unknown"))
                                models))]),
           log ++ [GET (models_url self)])).
Proof.
  intros gw self log.
  split; [apply test_connection_returns|].
  split; [|split].
  - intros Hgw.
    apply (test_connection_of_failure gw self log
             (Exception
                "Cannot connect to LM Studio. Make sure it's running.")).
    unfold list_models, try_except, bind, send. rewrite Hgw. reflexivity.
  - intros e Hgw. apply test_connection_of_failure.
    unfold list_models, try_except, bind, send. rewrite Hgw.
    destruct e. reflexivity.
  - intros resp d models Hgw Hok Hbody Hdata.
    unfold test_connection, try_except, bind.
    assert (Hlist : list_models gw self log
                    = (Ok (JArr (map JObj models)),
                       log ++ [GET (models_url self)])).
    { unfold list_models, try_except, bind, send, raise_for_status.
      rewrite Hgw, Hok. unfold ret, pure, lift. rewrite Hbody. simpl.
      unfold get. rewrite Hdata. reflexivity. }
    rewrite Hlist. unfold lift, ret. simpl.
    rewrite model_ids_objects, length_map. reflexivity.
Qed.

Lemma test_connection_never_raises_witness :
  test_connection Scenario.unreachable Scenario.local_adapter []
  = (Ok (JObj [("status", JStr "disconnected");
               ("url", JStr "http://localhost:1234");
               ("error",
                JStr "Cannot connect to LM Studio. Make sure it's running.")]),
     [GET "http://localhost:1234/v1/models"])
  /\
  test_connection (Scenario.serving ["m1"; "m2"; "m3"])
    Scenario.local_adapter []
  = (Ok (JObj [("status", JStr "connected");
               ("url", JStr "http://localhost:1234");
               ("models_count", JInt 3);
               ("models", JArr [JStr "m1"; JStr "m2"; JStr "m3"])]),
     [GET "http://localhost:1234/v1/models"]).
Proof.
  split.
  - apply (proj1 (proj2 (test_connection_never_raises Scenario.unreachable
                           Scenario.local_adapter []))).
    reflexivity.
  - apply (proj2 (proj2 (proj2 (test_connection_never_raises
                                  (Scenario.serving ["m1"; "m2"; "m3"])
                                  Scenario.local_adapter [])))
             (Scenario.ok_response
                (JObj [("data", JArr (map Scenario.model
                                        ["m1"; "m2"; "m3"]))]))
             [("data", JArr (map Scenario.model ["m1"; "m2"; "m3"]))]
             [ [("id", JStr "m1"); ("object", JStr "model")];
               [("id", JStr "m2"); ("object", JStr "model")];
               [("id", JStr "m3"); ("object", JStr "model")] ]);
      reflexivity.
Defined.

(** A gateway that lists things that are not objects is reported as
    disconnected. *)
Example test_connection_odd_listing :
  fst (test_connection
         (fun _ _ => Responds
            (Scenario.ok_response (JObj [("data", JArr [JStr "m1"])])))
         Scenario.local_adapter [])
  = Ok (JObj [("status", JStr "disconnected");
              ("url", JStr "http://localhost:1234");
              ("error", JStr "'str' object has no attribute 'get'")]).
Proof. reflexivity. Qed.

End LMStudioFacts.

Module FileSystemFacts.
Import Py FileTools.

Lemma path_eqb_eq p q : path_eqb p q = true <-> p = q.
Proof.
  unfold path_eqb. destruct (list_eq_dec string_dec p q); split;
    intros H; congruence.
Qed.

Lemma path_eqb_refl p : path_eqb p p = true.
Proof. apply path_eqb_eq. reflexivity. Qed.

Lemma path_eqb_neq p q : p <> q -> path_eqb p q = false.
Proof.
  intros H. destruct (path_eqb p q) eqn:E; [|reflexivity].
  apply path_eqb_eq in E. contradiction.
Qed.

Lemma snoc_not_nil {A} (l : list A) (x : A) : l ++ [x] <> [].
Proof. destruct l; discriminate. Qed.

Lemma node_at_snoc fs p c : node_at fs (p ++ [c]) = find_node fs (p ++ [c]).
Proof. destruct p; reflexivity. Qed.

Lemma node_at_put_same fs p c n :
  node_at (put fs (p ++ [c]) n) (p ++ [c]) = Some n.
Proof.
  rewrite node_at_snoc. simpl. rewrite path_eqb_refl. reflexivity.
Qed.

Lemma node_at_put_other fs q n p :
  p <> q -> node_at (put fs q n) p = node_at fs p.
Proof.
  intros Hne. destruct p as [|x p]; [reflexivity|].
  simpl. rewrite path_eqb_neq by congruence. reflexivity.
Qed.

Lemma extends_refl fs : extends fs fs.
Proof. intros p n H. exact H. Qed.

Lemma extends_trans a b c : extends a b -> extends b c -> extends a c.
Proof. intros H1 H2 p n H. apply H2, H1, H. Qed.

Lemma extends_put_new fs q n :
  node_at fs q = None -> extends fs (put fs q n).
Proof.
  intros Hnone p m Hp.
  rewrite node_at_put_other; [exact Hp|].
  intros ->. congruence.
Qed.

Lemma extends_covers fs fs' : extends fs fs' -> covers fs fs'.
Proof.
  intros Hext. split.
  - intros p Hp. apply Hext, Hp.
  - intros p Hp. destruct (node_at fs p) as [n|] eqn:E; [|contradiction].
    rewrite (Hext _ _ E). discriminate.
Qed.

Lemma put_covers fs q n :
  node_at fs q <> Some Dir -> covers fs (put fs q n).
Proof.
  intros Hnot. split.
  - intros p Hp. rewrite node_at_put_other; [exact Hp|].
    intros ->. contradiction.
  - intros p Hp. destruct p as [|x p]; [discriminate|].
    simpl. destruct (path_eqb q (x :: p)); [discriminate | exact Hp].
Qed.

(** The walk only asks for directories to be directories and for things to
    exist: it goes the same way in a file system that covers this one. *)
Lemma walk_covers fs fs' comps : forall cur q,
  covers fs fs' ->
  walk fs cur comps = Some q ->
  walk fs' cur comps = Some q.
Proof.
  induction comps as [|c rest IH]; intros cur q Hcov Hwalk; simpl in *.
  - exact Hwalk.
  - destruct (node_at fs cur) as [[|]|] eqn:Hcur; try discriminate.
    rewrite (proj1 Hcov _ Hcur).
    destruct (String.eqb c "..").
    + apply IH; assumption.
    + destruct (node_at fs (cur ++ [c])) as [n|] eqn:Hnext; [|discriminate].
      assert (Hsome : node_at fs' (cur ++ [c]) <> None).
      { apply (proj2 Hcov). congruence. }
      destruct (node_at fs' (cur ++ [c])); [|contradiction].
      apply IH; assumption.
Qed.

Lemma walk_extends fs fs' comps cur q :
  extends fs fs' ->
  walk fs cur comps = Some q ->
  walk fs' cur comps = Some q.
Proof. intros Hext. apply walk_covers, extends_covers, Hext. Qed.

Lemma walk_app fs a : forall cur b,
  walk fs cur (a ++ b)
  = match walk fs cur a with
    | Some q => walk fs q b
    | None => None
    end.
Proof.
  induction a as [|c a IH]; intros cur b; simpl.
  - reflexivity.
  - destruct (node_at fs cur) as [[|]|]; try reflexivity.
    destruct (String.eqb c ".."); [apply IH|].
    destruct (node_at fs (cur ++ [c])); [apply IH | reflexivity].
Qed.

(** *** Trees *)

Lemma find_node_in fs p n :
  find_node fs p = Some n -> In (p, n) fs.
Proof.
  induction fs as [|[q m] fs IH]; simpl; [discriminate|].
  destruct (path_eqb q p) eqn:E.
  - apply path_eqb_eq in E. intros [= ->]. left. congruence.
  - intros H. right. apply IH, H.
Qed.

Lemma well_formed_parent fs p c n :
  well_formed fs = true ->
  node_at fs (p ++ [c]) = Some n ->
  node_at fs p = Some Dir.
Proof.
  intros Hwf Hnode. rewrite node_at_snoc in Hnode.
  apply find_node_in in Hnode.
  unfold well_formed in Hwf. rewrite forallb_forall in Hwf.
  specialize (Hwf _ Hnode). unfold parent_is_dir in Hwf. simpl in Hwf.
  rewrite removelast_last in Hwf.
  destruct (node_at fs p) as [[|]|]; try discriminate. reflexivity.
Qed.

Lemma well_formed_up fs p :
  well_formed fs = true ->
  node_at fs p = Some Dir ->
  node_at fs (removelast p) = Some Dir.
Proof.
  intros Hwf Hp. destruct p as [|x p']; [exact Hp|].
  destruct (exists_last (l := x :: p') ltac:(discriminate)) as [q [c Heq]].
  rewrite Heq in *. rewrite removelast_last.
  eapply well_formed_parent; eassumption.
Qed.

Lemma forallb_ext_in {A} (f g : A -> bool) (l : list A) :
  (forall x, In x l -> f x = true -> g x = true) ->
  forallb f l = true -> forallb g l = true.
Proof.
  intros H Hf. rewrite forallb_forall in *. intros x Hx.
  apply H; [exact Hx | apply Hf, Hx].
Qed.

(** Putting something where nothing that exists has its parent keeps the
    tree a tree, when the new entry's own parent is a directory. *)
Lemma well_formed_put fs q c n :
  well_formed fs = true ->
  node_at fs q = Some Dir ->
  node_at fs (q ++ [c]) <> Some Dir ->
  well_formed (put fs (q ++ [c]) n) = true.
Proof.
  intros Hwf Hq Hnot.
  assert (Hkeep : forall p, node_at fs p = Some Dir ->
                            node_at (put fs (q ++ [c]) n) p = Some Dir).
  { intros p Hp. rewrite node_at_put_other; [exact Hp|].
    intros ->. contradiction. }
  unfold well_formed. simpl. apply andb_true_intro. split.
  - unfold parent_is_dir. simpl. rewrite removelast_last.
    rewrite (Hkeep _ Hq). reflexivity.
  - unfold well_formed in Hwf.
    eapply forallb_ext_in; [|exact Hwf].
    intros e _ He. unfold parent_is_dir in *.
    destruct (node_at fs (removelast (fst e))) as [[|]|] eqn:Hpar;
      try discriminate.
    rewrite (Hkeep _ Hpar). reflexivity.
Qed.

(** *** Creating the parents *)

Lemma mkdirs_spec comps : forall fs cur seen made fs1 dir,
  well_formed fs = true ->
  node_at fs cur = Some Dir ->
  mkdirs fs cur seen made comps = (Ok dir, fs1) ->
  well_formed fs1 = true /\
  node_at fs1 dir = Some Dir /\
  walk fs1 cur comps = Some dir /\
  extends fs fs1 /\
  (forall p n, node_at fs p = None -> node_at fs1 p = Some n ->
     n = Dir /\ exists k, p = fold_left step (firstn k comps) cur).
Proof.
  induction comps as [|c rest IH]; intros fs cur seen made fs1 dir Hwf Hcur H;
    simpl in H.
  - inversion H; subst. simpl. repeat split; auto using extends_refl;
      congruence.
  - destruct (String.eqb c "..") eqn:Hdots.
    + destruct (IH _ _ _ _ _ _ Hwf (well_formed_up _ _ Hwf Hcur) H)
        as [Hwf1 [Hdir [Hwalk [Hext Hnew]]]].
      repeat split; try assumption.
      * simpl. rewrite (Hext _ _ Hcur), Hdots. exact Hwalk.
      * destruct (Hnew _ _ H0 H1) as [Hn _]. exact Hn.
      * destruct (Hnew _ _ H0 H1) as [_ [k Hk]]. exists (S k).
        simpl. unfold step at 2. rewrite Hdots. exact Hk.
    + destruct (node_at fs (cur ++ [c])) as [[text|]|] eqn:Hnext.
      * discriminate.
      * destruct (IH _ _ _ _ _ _ Hwf Hnext H)
          as [Hwf1 [Hdir [Hwalk [Hext Hnew]]]].
        repeat split; try assumption.
        -- simpl. rewrite (Hext _ _ Hcur), Hdots, (Hext _ _ Hnext).
           exact Hwalk.
        -- destruct (Hnew _ _ H0 H1) as [Hn _]. exact Hn.
        -- destruct (Hnew _ _ H0 H1) as [_ [k Hk]]. exists (S k).
           simpl. unfold step at 2. rewrite Hdots. exact Hk.
      * assert (Hwf' : well_formed (put fs (cur ++ [c]) Dir) = true).
        { apply well_formed_put; try assumption. congruence. }
        destruct (IH _ _ _ _ _ _ Hwf' (node_at_put_same _ _ _ _) H)
          as [Hwf1 [Hdir [Hwalk [Hext Hnew]]]].
        assert (Hext0 : extends fs fs1).
        { eapply extends_trans; [|exact Hext].
          apply extends_put_new, Hnext. }
        assert (Hmade : forall p n,
                   node_at fs p = None -> node_at fs1 p = Some n ->
                   n = Dir /\
                   exists k, p = fold_left step (firstn k (c :: rest)) cur).
        { intros p n Hold Hp.
          destruct (list_eq_dec string_dec p (cur ++ [c])) as [-> | Hne].
          - rewrite (Hext _ _ (node_at_put_same _ _ _ _)) in Hp.
            injection Hp as <-. split; [reflexivity|].
            exists 1%nat. simpl. unfold step. rewrite Hdots. reflexivity.
          - assert (Hold' : node_at (put fs (cur ++ [c]) Dir) p = None)
              by (rewrite node_at_put_other by exact Hne; exact Hold).
            destruct (Hnew _ _ Hold' Hp) as [Hn [k Hk]].
            split; [exact Hn|]. exists (S k).
            simpl. unfold step at 2. rewrite Hdots. exact Hk. }
        repeat split; try assumption.
        -- simpl. rewrite (Hext0 _ _ Hcur), Hdots.
           rewrite (Hext _ _ (node_at_put_same _ _ _ _)). exact Hwalk.
        -- destruct (Hmade _ _ H0 H1) as [Hn _]. exact Hn.
        -- destruct (Hmade _ _ H0 H1) as [_ Hk]. exact Hk.
Qed.

(** *** Writing and reading back *)

Lemma open_write_eq fs dir p content :
  open_write fs dir p content
  = if String.eqb (last p "..") ".."
    then (Raise (errno "IsADirectoryError" "Is a directory" "21" p), fs)
    else match node_at fs (dir ++ [last p ".."]) with
         | Some Dir =>
             (Raise (errno "IsADirectoryError" "Is a directory" "21" p), fs)
         | _ =>
             match content with
             | JStr text =>
                 (Ok tt, put fs (dir ++ [last p ".."]) (File text))
             | _ => (Raise (TypeError ("write() argument must be str, not "
                                       ++ refused_type content)),
                     put fs (dir ++ [last p ".."]) (File ""))
             end
         end.
Proof.
  unfold open_write. generalize (last p "..") as name. intros name.
  destruct name as [|c1 s1]; [reflexivity|].
  destruct c1 as [[] [] [] [] [] [] [] []]; try reflexivity.
  destruct s1 as [|c2 s2]; [reflexivity|].
  destruct c2 as [[] [] [] [] [] [] [] []]; try reflexivity.
  destruct s2; reflexivity.
Qed.

Lemma last_dots_nonempty (p : path) :
  String.eqb (last p "..") ".." = false -> p = removelast p ++ [last p ".."].
Proof.
  intros H. apply app_removelast_last. intros ->. discriminate H.
Qed.

(** What a successful [write_file] did. *)
Lemma write_file_ok self fp content fs msg fs' :
  well_formed fs = true ->
  write_file self (JStr fp) content fs = (Ok msg, fs') ->
  let full := join (base_path self) fp in
  exists fs1 dir text,
    content = JStr text /\
    inside self full = true /\
    String.eqb (last full "..") ".." = false /\
    well_formed fs1 = true /\
    extends fs fs1 /\
    walk fs1 [] (parent full) = Some dir /\
    node_at fs1 dir = Some Dir /\
    node_at fs1 (dir ++ [last full ".."]) <> Some Dir /\
    fs' = put fs1 (dir ++ [last full ".."]) (File text) /\
    msg = ("Successfully wrote to " ++ fp)%string /\
    (forall p n, node_at fs p = None -> node_at fs1 p = Some n ->
       n = Dir /\ exists k, p = resolve (firstn k (parent full))).
Proof.
  intros Hwf. unfold write_file. cbv zeta.
  set (full := join (base_path self) fp).
  destruct (inside self full) eqn:Hin; simpl; [|discriminate].
  destruct (mkdirs fs [] [] false (parent full)) as [[dir|e] fs1] eqn:Hmk;
    [|discriminate].
  destruct (mkdirs_spec _ fs [] _ _ _ _ Hwf eq_refl Hmk)
    as [Hwf1 [Hdir [Hwalk [Hext Hnew]]]].
  rewrite open_write_eq.
  destruct (String.eqb (last full "..") "..") eqn:Hdots; [discriminate|].
  destruct (node_at fs1 (dir ++ [last full ".."])) as [[t|]|] eqn:Hnode;
    try discriminate;
    (destruct content as [| | | |text| |]; try discriminate;
     intros [= <- <-]; exists fs1, dir, text;
     repeat split; try assumption; try congruence;
     match goal with
     | Ho : node_at fs _ = None, Hp : node_at fs1 _ = Some _ |- _ =>
         apply (Hnew _ _ Ho Hp)
     end).
Qed.

(** Where a walk ends is where [resolve] says. *)
Lemma walk_position fs comps : forall cur q,
  walk fs cur comps = Some q -> q = fold_left step comps cur.
Proof.
  induction comps as [|c rest IH]; intros cur q H; simpl in *.
  - congruence.
  - destruct (node_at fs cur) as [[|]|]; try discriminate.
    unfold step at 2. destruct (String.eqb c "..").
    + apply IH, H.
    + destruct (node_at fs (cur ++ [c])); [apply IH, H | discriminate].
Qed.

Lemma snoc_neq {A} (l : list A) (x : A) : l <> l ++ [x].
Proof.
  intros H. apply (f_equal (@List.length A)) in H.
  rewrite length_app in H. simpl in H. lia.
Qed.

Lemma contains_cr_cons c text :
  contains (String (ascii_of_nat 13) EmptyString) (String c text)
  = Ascii.eqb c (ascii_of_nat 13)
    || contains (String (ascii_of_nat 13) EmptyString) text.
Proof.
  cbn [contains is_prefix]. rewrite Ascii.eqb_sym, andb_true_r. reflexivity.
Qed.

(** Text without a carriage return is read as it is. *)
Lemma universal_newlines_cr_free text :
  cr_free text = true -> universal_newlines text = text.
Proof.
  unfold cr_free. induction text as [|c text IH]; [reflexivity|].
  rewrite contains_cr_cons. intros H.
  apply negb_true_iff, orb_false_elim in H. destruct H as [Hc Hrest].
  cbn [universal_newlines]. rewrite Hc.
  rewrite IH; [reflexivity|]. rewrite Hrest. reflexivity.
Qed.

Lemma read_after_write self fp text fs fs' msg :
  well_formed fs = true ->
  write_file self (JStr fp) (JStr text) fs = (Ok msg, fs') ->
  read_file self (JStr fp) fs' = Ok (universal_newlines text) /\
  well_formed fs' = true.
Proof.
  intros Hwf Hwrite.
  destruct (write_file_ok _ _ _ _ _ _ Hwf Hwrite)
    as [fs1 [dir [text' [Htext [Hin [Hdots [Hwf1 [_ [Hwalk [Hdir [Hnot
        [-> _]]]]]]]]]]]].
  injection Htext as <-.
  set (full := join (base_path self) fp) in *.
  set (name := last full "..") in *.
  set (target := dir ++ [name]) in *.
  assert (Hfull : full = parent full ++ [name])
    by (apply last_dots_nonempty, Hdots).
  assert (Hwalk' : walk (put fs1 target (File text)) [] full = Some target).
  { rewrite Hfull, walk_app.
    rewrite (walk_covers fs1 _ _ _ _ (put_covers _ _ _ Hnot) Hwalk).
    simpl. rewrite node_at_put_other by apply snoc_neq.
    rewrite Hdir. fold name. rewrite Hdots.
    unfold target. rewrite node_at_put_same. reflexivity. }
  split.
  - unfold read_file. fold full. rewrite Hin. simpl.
    unfold exists_, open_read. rewrite Hwalk'. simpl.
    unfold target. rewrite node_at_put_same. reflexivity.
  - apply well_formed_put; assumption.
Qed.

(** X1: On a tree-shaped file system, a [write_file] that succeeds is read
    back by [read_file] at the same path with the content written, its
    [\r\n] and [\r] turned into [\n] by the reading in text mode; content
    without a carriage return comes back exactly as written.  The file
    system is still a tree. *)
Theorem write_then_read_roundtrip :
  forall (self : t) (fp text : string) (fs fs' : filesystem) (msg : string),
    well_formed fs = true ->
    write_file self (JStr fp) (JStr text) fs = (Ok msg, fs') ->
    read_file self (JStr fp) fs' = Ok (universal_newlines text) /\
    (cr_free text = true -> read_file self (JStr fp) fs' = Ok text) /\
    well_formed fs' = true.
Proof.
  intros self fp text fs fs' msg Hwf Hwrite.
  destruct (read_after_write _ _ _ _ _ _ Hwf Hwrite) as [Hread Hwf'].
  repeat split; try assumption.
  intros Hfree. rewrite Hread, (universal_newlines_cr_free _ Hfree).
  reflexivity.
Qed.

Lemma write_then_read_roundtrip_witness :
  read_file Scenario.app_root (JStr "logs/2024/../today.txt")
    (snd (write_file Scenario.app_root (JStr "logs/2024/../today.txt")
            (JStr "started") Scenario.disk))
  = Ok "started"
  /\
  read_file Scenario.app_root (JStr "log.txt")
    (snd (write_file Scenario.app_root (JStr "log.txt")
            (JStr (String "a" (String (ascii_of_nat 13)
                     (String (ascii_of_nat 10) (String "b"
                        (String (ascii_of_nat 13) "c"))))))
            Scenario.disk))
  = Ok (String "a" (String (ascii_of_nat 10)
          (String "b" (String (ascii_of_nat 10) "c")))).
Proof.
  split.
  - apply (proj1 (proj2 (write_then_read_roundtrip Scenario.app_root
             "logs/2024/../today.txt" "started" Scenario.disk _
             "Successfully wrote to logs/2024/../today.txt"
             eq_refl eq_refl))).
    reflexivity.
  - exact (proj1 (write_then_read_roundtrip Scenario.app_root
             "log.txt"
             (String "a" (String (ascii_of_nat 13)
                (String (ascii_of_nat 10) (String "b"
                   (String (ascii_of_nat 13) "c")))))
             Scenario.disk
             (snd (write_file Scenario.app_root (JStr "log.txt")
                     (JStr (String "a" (String (ascii_of_nat 13)
                              (String (ascii_of_nat 10) (String "b"
                                 (String (ascii_of_nat 13) "c"))))))
                     Scenario.disk))
             "Successfully wrote to log.txt" eq_refl eq_refl)).
Defined.

(** X2: A [write_file] that succeeds puts the content at the resolved path
    and leaves whatever existed at any other path as it was.  What appears
    at another path, where there was nothing, is a directory, at a place
    the path as written passes through on its way to the file. *)
Theorem write_file_touches_only_target :
  forall (self : t) (fp text : string) (fs fs' : filesystem) (msg : string),
    well_formed fs = true ->
    write_file self (JStr fp) (JStr text) fs = (Ok msg, fs') ->
    let full := join (base_path self) fp in
    let target := resolve full in
    node_at fs' target = Some (File text) /\
    (forall p n,
        p <> target -> node_at fs p = Some n -> node_at fs' p = Some n) /\
    (forall p n,
        p <> target -> node_at fs p = None -> node_at fs' p = Some n ->
        n = Dir /\ exists k, p = resolve (firstn k (parent full))).
Proof.
  intros self fp text fs fs' msg Hwf Hwrite.
  destruct (write_file_ok _ _ _ _ _ _ Hwf Hwrite)
    as [fs1 [dir [text' [Htext [_ [Hdots [_ [Hext [Hwalk [_ [_
        [-> [_ Hnew]]]]]]]]]]]]].
  injection Htext as <-.
  set (full := join (base_path self) fp) in *.
  assert (Htarget : resolve full = dir ++ [last full ".."]).
  { unfold resolve, parent in *. rewrite (last_dots_nonempty _ Hdots) at 1.
    rewrite fold_left_app. simpl.
    rewrite <- (walk_position _ _ _ _ Hwalk).
    unfold step. rewrite Hdots. reflexivity. }
  cbv zeta. rewrite Htarget. split; [|split].
  - apply node_at_put_same.
  - intros p n Hne Hp. rewrite node_at_put_other by exact Hne.
    apply Hext, Hp.
  - intros p n Hne Hold Hp. rewrite node_at_put_other in Hp by exact Hne.
    exact (Hnew _ _ Hold Hp).
Qed.

Lemma write_file_touches_only_target_witness :
  node_at (snd (write_file Scenario.app_root (JStr "logs/2024/today.txt")
                  (JStr "new") Scenario.disk))
          ["srv"; "app"; "logs"; "2024"; "today.txt"] = Some (File "new") /\
  node_at (snd (write_file Scenario.app_root (JStr "logs/2024/today.txt")
                  (JStr "new") Scenario.disk))
          ["srv"; "app-private"; "key.txt"] = Some (File "secret") /\
  (forall n,
      node_at (snd (write_file Scenario.app_root (JStr "logs/2024/today.txt")
                      (JStr "new") Scenario.disk))
              ["srv"; "app"; "logs"] = Some n -> n = Dir).
Proof.
  destruct (write_file_touches_only_target Scenario.app_root
              "logs/2024/today.txt" "new" Scenario.disk
              (snd (write_file Scenario.app_root (JStr "logs/2024/today.txt")
                      (JStr "new") Scenario.disk))
              "Successfully wrote to logs/2024/today.txt" eq_refl eq_refl)
    as [Hnew [Hold Hmade]].
  split; [exact Hnew|].
  split; [apply Hold; [discriminate | reflexivity]|].
  intros n Hn.
  exact (proj1 (Hmade ["srv"; "app"; "logs"] n ltac:(discriminate)
                  eq_refl Hn)).
Defined.

(** *** Deleting *)

Lemma find_node_remove_same fs q : find_node (remove fs q) q = None.
Proof.
  induction fs as [|[p n] fs IH]; simpl; [reflexivity|].
  destruct (path_eqb p q) eqn:E; simpl; [exact IH|].
  rewrite E. exact IH.
Qed.

Lemma find_node_remove_other fs q p :
  p <> q -> find_node (remove fs q) p = find_node fs p.
Proof.
  intros Hne. induction fs as [|[r n] fs IH]; simpl; [reflexivity|].
  destruct (path_eqb r q) eqn:E; simpl.
  - apply path_eqb_eq in E. subst r.
    rewrite (path_eqb_neq q p) by congruence. exact IH.
  - rewrite IH. reflexivity.
Qed.

Lemma node_at_remove_other fs q p :
  p <> q -> node_at (remove fs q) p = node_at fs p.
Proof.
  intros Hne. destruct p; [reflexivity|].
  simpl. apply find_node_remove_other, Hne.
Qed.

(** What a walk that reaches a file looks like, in a tree: it ends with a
    name, not with [..]. *)
Lemma walk_to_file fs full q text :
  well_formed fs = true ->
  walk fs [] full = Some q ->
  node_at fs q = Some (File text) ->
  exists pre c cur,
    full = pre ++ [c] /\ String.eqb c ".." = false /\
    walk fs [] pre = Some cur /\ q = cur ++ [c].
Proof.
  intros Hwf Hwalk Hfile.
  destruct full as [|x full'].
  { simpl in Hwalk. injection Hwalk as <-. discriminate Hfile. }
  destruct (exists_last (l := x :: full') ltac:(discriminate))
    as [pre [c Heq]].
  rewrite Heq in *. clear Heq x full'.
  rewrite walk_app in Hwalk.
  destruct (walk fs [] pre) as [cur|] eqn:Hpre; [|discriminate].
  simpl in Hwalk.
  destruct (node_at fs cur) as [[|]|] eqn:Hcur; try discriminate.
  destruct (String.eqb c "..") eqn:Hdots.
  - injection Hwalk as <-.
    rewrite (well_formed_up _ _ Hwf Hcur) in Hfile. discriminate.
  - destruct (node_at fs (cur ++ [c])); [|discriminate].
    injection Hwalk as <-. exists pre, c, cur. auto.
Qed.

(** X3: After a [delete_file] that succeeds, [read_file] at the same path
    reports the file as not found, and whatever lives at any other path is
    as before. *)
Theorem delete_then_read_not_found :
  forall (self : t) (fp : string) (fs fs' : filesystem) (msg : string),
    well_formed fs = true ->
    delete_file self (JStr fp) fs = (Ok msg, fs') ->
    read_file self (JStr fp) fs'
    = Raise (FileNotFoundError ("File not found: " ++ fp)) /\
    forall p, p <> resolve (join (base_path self) fp) ->
              node_at fs' p = node_at fs p.
Proof.
  intros self fp fs fs' msg Hwf. unfold delete_file, read_file. cbv zeta.
  set (full := join (base_path self) fp).
  destruct (inside self full) eqn:Hin; simpl; [|discriminate].
  destruct (exists_ fs full) eqn:Hex; simpl; [|discriminate].
  unfold unlink.
  destruct (walk fs [] full) as [q|] eqn:Hwalk; [|discriminate].
  destruct (node_at fs q) as [[text|]|] eqn:Hq; try discriminate.
  intros [= <- <-].
  destruct (walk_to_file _ _ _ _ Hwf Hwalk Hq)
    as [pre [c [cur [Hfull [Hdots [Hpre ->]]]]]].
  assert (Hres : resolve full = cur ++ [c]).
  { unfold resolve. apply eq_sym. exact (walk_position _ _ _ _ Hwalk). }
  split.
  - assert (Hgone : exists_ (remove fs (cur ++ [c])) full = false).
    { unfold exists_. rewrite Hfull, walk_app.
      destruct (walk (remove fs (cur ++ [c])) [] pre) as [cur'|] eqn:Hpre';
        [|reflexivity].
      rewrite (walk_position _ _ _ _ Hpre').
      rewrite <- (walk_position _ _ _ _ Hpre).
      simpl. destruct (node_at (remove fs (cur ++ [c])) cur) as [[|]|];
        try reflexivity.
      rewrite Hdots, node_at_snoc, find_node_remove_same. reflexivity. }
    rewrite Hgone. reflexivity.
  - intros p Hne. apply node_at_remove_other. rewrite <- Hres. exact Hne.
Qed.

Lemma delete_then_read_not_found_witness :
  read_file Scenario.app_root (JStr "readme.txt")
    (snd (delete_file Scenario.app_root (JStr "readme.txt") Scenario.disk))
  = Raise (FileNotFoundError "File not found: readme.txt").
Proof.
  apply (delete_then_read_not_found Scenario.app_root "readme.txt"
           Scenario.disk _ "Successfully deleted readme.txt");
    reflexivity.
Defined.

End FileSystemFacts.

Module ContainmentFacts.
Import Py FileTools.

Lemma is_prefix_refl s : is_prefix s s = true.
Proof.
  induction s as [|a s IH]; simpl; [reflexivity|].
  rewrite Ascii.eqb_refl. exact IH.
Qed.

Lemma is_prefix_app s t : is_prefix s (s ++ t)%string = true.
Proof.
  induction s as [|a s IH]; simpl; [reflexivity|].
  rewrite Ascii.eqb_refl. exact IH.
Qed.

Lemma is_prefix_app_same s t u :
  is_prefix (s ++ t)%string (s ++ u)%string = is_prefix t u.
Proof.
  induction s as [|a s IH]; simpl; [reflexivity|].
  rewrite Ascii.eqb_refl. exact IH.
Qed.

Lemma concat_cons sep x y ys :
  String.concat sep (x :: y :: ys)
  = (x ++ sep ++ String.concat sep (y :: ys))%string.
Proof. reflexivity. Qed.

Lemma concat_prefix_app root : forall rest,
  is_prefix (String.concat "/" root) (String.concat "/" (root ++ rest)) = true.
Proof.
  induction root as [|x root IH]; intros rest.
  - reflexivity.
  - destruct root as [|y root].
    + destruct rest as [|z rest]; simpl.
      * apply is_prefix_refl.
      * apply is_prefix_app.
    + change ((x :: y :: root) ++ rest) with (x :: y :: (root ++ rest)).
      rewrite !concat_cons, !is_prefix_app_same.
      apply (IH rest).
Qed.

Lemma is_descendant_app root : forall p,
  is_descendant root p = true -> exists rest, p = root ++ rest.
Proof.
  induction root as [|r root IH]; intros p H.
  - exists p. reflexivity.
  - destruct p as [|c p]; [discriminate|]. simpl in H.
    apply andb_prop in H. destruct H as [Hrc Hrest].
    apply String.eqb_eq in Hrc. subst c.
    destruct (IH _ Hrest) as [rest ->]. exists rest. reflexivity.
Qed.

(** X4: The containment test never refuses a path that resolves to the root
    or below it. *)
Theorem inside_accepts_descendants :
  forall (self : t) (full_path : path),
    is_descendant (resolve (base_path self)) (resolve full_path) = true ->
    inside self full_path = true.
Proof.
  intros self full_path H. unfold inside, startswith, path_str.
  destruct (is_descendant_app _ _ H) as [rest ->].
  simpl. apply concat_prefix_app.
Qed.

Lemma inside_accepts_descendants_witness :
  inside Scenario.app_root
    (join (base_path Scenario.app_root) "a/b/../c.txt") = true.
Proof.
  apply (inside_accepts_descendants Scenario.app_root
           (join (base_path Scenario.app_root) "a/b/../c.txt")).
  reflexivity.
Defined.

(** *** What the test accepts, exactly *)

Lemma slash_free_string a s :
  slash_free (String a s) = negb (Ascii.eqb a "/"%char) && slash_free s.
Proof.
  unfold slash_free.
  change (contains "/" (String a s))
    with (Ascii.eqb "/"%char a && true || contains "/" s).
  rewrite (Ascii.eqb_sym "/"%char a), andb_true_r. apply negb_orb.
Qed.

Lemma slash_free_cons a s :
  slash_free (String a s) = true ->
  Ascii.eqb a "/"%char = false /\ slash_free s = true.
Proof.
  rewrite slash_free_string. intros H. apply andb_prop in H.
  destruct H as [Ha Hs]. split; [|exact Hs].
  apply negb_true_iff, Ha.
Qed.

Lemma string_eqb_cons a s b t :
  String.eqb (String a s) (String b t) = Ascii.eqb a b && String.eqb s t.
Proof. simpl. destruct (Ascii.eqb a b); reflexivity. Qed.

Lemma append_cons a s t : (String a s ++ t)%string = String a (s ++ t).
Proof. reflexivity. Qed.

Lemma is_prefix_cons a s b t :
  is_prefix (String a s) (String b t) = Ascii.eqb a b && is_prefix s t.
Proof. reflexivity. Qed.

Lemma is_prefix_slash_cons R b t :
  Ascii.eqb b "/"%char = false ->
  is_prefix ("/" ++ R)%string (String b t) = false.
Proof.
  intros Hb. change ("/" ++ R)%string with (String "/"%char R).
  rewrite is_prefix_cons, (Ascii.eqb_sym "/"%char b), Hb. reflexivity.
Qed.

Lemma is_prefix_cons_slash a s X :
  Ascii.eqb a "/"%char = false ->
  is_prefix (String a s) ("/" ++ X)%string = false.
Proof.
  intros Ha. change ("/" ++ X)%string with (String "/"%char X).
  rewrite is_prefix_cons, Ha. reflexivity.
Qed.

Lemma prefix_both_joined l : forall x R X,
  slash_free l = true -> slash_free x = true ->
  is_prefix (l ++ "/" ++ R)%string (x ++ "/" ++ X)%string
  = String.eqb l x && is_prefix R X.
Proof.
  induction l as [|a l IH]; intros x R X Hl Hx; destruct x as [|b x].
  - reflexivity.
  - apply slash_free_cons in Hx. destruct Hx as [Hb _].
    change (("" ++ "/" ++ R)%string) with ("/" ++ R)%string.
    rewrite (append_cons b x). apply is_prefix_slash_cons, Hb.
  - apply slash_free_cons in Hl. destruct Hl as [Ha _].
    change (("" ++ "/" ++ X)%string) with ("/" ++ X)%string.
    rewrite (append_cons a l). apply is_prefix_cons_slash, Ha.
  - apply slash_free_cons in Hl. apply slash_free_cons in Hx.
    destruct Hl as [_ Hl], Hx as [_ Hx].
    rewrite string_eqb_cons, (append_cons a l), (append_cons b x).
    rewrite is_prefix_cons.
    rewrite (IH x R X Hl Hx). apply andb_assoc.
Qed.

Lemma prefix_joined_of_single l : forall x R,
  slash_free x = true ->
  is_prefix (l ++ "/" ++ R)%string x = false.
Proof.
  induction l as [|a l IH]; intros x R Hx; destruct x as [|b x];
    try reflexivity.
  - apply slash_free_cons in Hx. destruct Hx as [Hb _].
    change (("" ++ "/" ++ R)%string) with ("/" ++ R)%string.
    apply is_prefix_slash_cons, Hb.
  - apply slash_free_cons in Hx. destruct Hx as [_ Hx].
    rewrite (append_cons a l), is_prefix_cons, (IH x R Hx).
    apply andb_false_r.
Qed.

Lemma prefix_single_of_joined l : forall x X,
  slash_free l = true ->
  is_prefix l (x ++ "/" ++ X)%string = is_prefix l x.
Proof.
  induction l as [|a l IH]; intros x X Hl; [reflexivity|].
  apply slash_free_cons in Hl. destruct Hl as [Ha Hl].
  destruct x as [|b x].
  - change (("" ++ "/" ++ X)%string) with ("/" ++ X)%string.
    apply is_prefix_cons_slash, Ha.
  - rewrite (append_cons b x), !is_prefix_cons, (IH x X Hl). reflexivity.
Qed.

Lemma plain_parts c :
  plain c = true -> c <> EmptyString /\ slash_free c = true.
Proof.
  unfold plain. intros H. apply andb_prop in H. destruct H as [Hne Hsf].
  split; [|exact Hsf]. intros ->. discriminate Hne.
Qed.

Lemma concat_begins_with root : forall p,
  Forall (fun c => plain c = true) root ->
  Forall (fun c => plain c = true) p ->
  is_prefix (String.concat "/" root) (String.concat "/" p)
  = begins_with root p.
Proof.
  induction root as [|l root IH]; intros p Hroot Hp; [reflexivity|].
  inversion Hroot as [|? ? Hl Hroot']; subst.
  destruct (plain_parts _ Hl) as [Hlne Hlsf].
  destruct root as [|m root].
  - destruct p as [|x [|y p]].
    + simpl. destruct l; [contradiction | reflexivity].
    + reflexivity.
    + inversion Hp as [|? ? Hx _]; subst.
      rewrite concat_cons. simpl begins_with.
      apply prefix_single_of_joined, Hlsf.
  - destruct p as [|x [|y p]].
    + rewrite concat_cons. destruct l; [contradiction | reflexivity].
    + inversion Hp as [|? ? Hx _]; subst.
      destruct (plain_parts _ Hx) as [_ Hxsf].
      rewrite concat_cons.
      change (String.concat "/" [x]) with x.
      rewrite prefix_joined_of_single by exact Hxsf.
      cbn [begins_with]. destruct root; apply eq_sym, andb_false_r.
    + inversion Hp as [|? ? Hx Hp']; subst.
      destruct (plain_parts _ Hx) as [_ Hxsf].
      rewrite !concat_cons, prefix_both_joined by assumption.
      rewrite (IH (y :: p) Hroot' Hp'). reflexivity.
Qed.

(** pathlib's components hold no separator and are not empty. *)
Lemma split_on_slash_free s :
  Forall (fun c => slash_free c = true) (split_on "/"%char s).
Proof.
  induction s as [|a s IH]; cbn [split_on].
  - repeat constructor.
  - destruct (Ascii.eqb a "/"%char) eqn:Ha.
    + constructor; [reflexivity | exact IH].
    + destruct (split_on "/"%char s) as [|x xs].
      * constructor; [|constructor].
        rewrite slash_free_string, Ha. reflexivity.
      * inversion IH as [|? ? Hx Hxs]; subst.
        constructor; [|exact Hxs].
        rewrite slash_free_string, Ha. exact Hx.
Qed.

Lemma parts_plain s : Forall (fun c => plain c = true) (parts s).
Proof.
  unfold parts. apply Forall_forall. intros c Hc.
  apply filter_In in Hc. destruct Hc as [Hin Hkept].
  unfold plain. unfold kept in Hkept.
  apply andb_prop in Hkept. destruct Hkept as [Hne _].
  rewrite Hne. simpl.
  exact (proj1 (Forall_forall _ _) (split_on_slash_free s) c Hin).
Qed.

Lemma Forall_removelast {A} (P : A -> Prop) (l : list A) :
  Forall P l -> Forall P (removelast l).
Proof.
  induction l as [|x l IH]; intros H; [constructor|].
  inversion H; subst. destruct l; [constructor|].
  simpl. constructor; [assumption | apply IH; assumption].
Qed.

Lemma resolve_plain comps : forall acc,
  Forall (fun c => plain c = true) acc ->
  Forall (fun c => plain c = true) comps ->
  Forall (fun c => plain c = true) (fold_left step comps acc).
Proof.
  induction comps as [|c comps IH]; intros acc Hacc Hcomps; [exact Hacc|].
  inversion Hcomps; subst. simpl. apply IH; [|assumption].
  unfold step. destruct (String.eqb c "..").
  - apply Forall_removelast, Hacc.
  - apply Forall_app. split; [exact Hacc | constructor; [assumption|constructor]].
Qed.

(** X5: The containment test accepts a path exactly when its resolved form
    begins with the resolved root in this sense: the components agree one
    by one, except that the root's last component need only be a prefix of
    the component in its place. *)
Theorem inside_is_begins_with :
  forall (self : t) (fp : string),
    Forall (fun c => plain c = true) (base_path self) ->
    inside self (join (base_path self) fp)
    = begins_with (resolve (base_path self))
                  (resolve (join (base_path self) fp)).
Proof.
  intros self fp Hbase. unfold inside, startswith, path_str. simpl.
  apply concat_begins_with; unfold resolve; apply resolve_plain;
    try constructor; try exact Hbase.
  unfold join. destruct (is_absolute fp).
  - apply parts_plain.
  - apply Forall_app. split; [exact Hbase | apply parts_plain].
Qed.

Lemma inside_is_begins_with_witness :
  inside Scenario.app_root
    (join (base_path Scenario.app_root) "../app-private/key.txt")
  = begins_with ["srv"; "app"] ["srv"; "app-private"; "key.txt"].
Proof.
  apply (inside_is_begins_with Scenario.app_root "../app-private/key.txt").
  repeat constructor.
Defined.

End ContainmentFacts.

Module AdapterFacts.
Import Py LMStudioTools.

(** *** The base URL *)

Lemma append_snoc_inv r c a :
  (r ++ String c "")%string = String a "" -> r = EmptyString /\ c = a.
Proof.
  destruct r as [|x r]; simpl; intros H.
  - injection H as ->. auto.
  - injection H as _ H. destruct r; discriminate H.
Qed.

Lemma rstrip_no_trailing drop s : forall r c,
  rstrip drop s = (r ++ String c "")%string -> drop c = false.
Proof.
  induction s as [|a s IH]; intros r c H.
  - destruct r; discriminate H.
  - cbn [rstrip] in H. destruct (rstrip drop s) as [|x y] eqn:Hs.
    + destruct (drop a) eqn:Ha.
      * destruct r; discriminate H.
      * apply eq_sym, append_snoc_inv in H. destruct H as [_ ->]. exact Ha.
    + destruct r as [|b r].
      * simpl in H. discriminate H.
      * simpl in H. injection H as _ H. exact (IH r c H).
Qed.

(** X12: Whatever URL the adapter is built with, from the argument, from the
    environment or by default, its base URL does not end in a slash; with
    neither argument nor environment it is the local default. *)
Theorem init_base_url_has_no_trailing_slash :
  forall (env : option string) (url : json) (self : t),
    init env url = Ok self ->
    (forall r, base_url self <> (r ++ "/")%string) /\
    (url = JNull -> env = None -> base_url self = "http://localhost:1234").
Proof.
  intros env url self Hinit.
  assert (Hstripped : exists u, base_url self = rstrip is_slash u).
  { destruct url; destruct env;
      cbv beta iota zeta delta [init] in Hinit; try discriminate;
      match type of Hinit with
      | Ok {| base_url := rstrip is_slash ?u |} = _ => exists u
      end; inversion Hinit; reflexivity. }
  split.
  - intros r Heq. destruct Hstripped as [u Hu]. rewrite Hu in Heq.
    apply rstrip_no_trailing in Heq. discriminate Heq.
  - intros -> ->. inversion Hinit. reflexivity.
Qed.

Lemma init_base_url_has_no_trailing_slash_witness :
  (forall r,
      base_url {| base_url := rstrip is_slash "http://10.0.0.5:8080///" |}
      <> (r ++ "/")%string) /\
  (JStr "http://10.0.0.5:8080///" = JNull ->
   Some "http://ignored/" = None ->
   base_url {| base_url := rstrip is_slash "http://10.0.0.5:8080///" |}
   = "http://localhost:1234").
Proof.
  apply (init_base_url_has_no_trailing_slash (Some "http://ignored/")
           (JStr "http://10.0.0.5:8080///")
           {| base_url := rstrip is_slash "http://10.0.0.5:8080///" |}).
  reflexivity.
Defined.

(** *** Requests sent *)

Lemma resolve_default_model_wire gw self log :
  snd (resolve_default_model gw self log) = log ++ [GET (models_url self)].
Proof.
  unfold resolve_default_model, bind, send.
  destruct (gw log _) as [|e|resp]; try reflexivity.
  unfold pure, lift.
  destruct (body resp) as [models_data|e]; [|reflexivity].
  destruct (py_get models_data "data" JNull) as [data|e]; [|reflexivity].
  destruct (truthy data); [|reflexivity].
  cbv beta iota.
  destruct (py_getitem models_data "data") as [d1|e]; [|reflexivity].
  destruct (py_len d1) as [n|e]; [|reflexivity].
  destruct (Nat.ltb 0 n); [|reflexivity].
  cbv beta iota.
  destruct (py_first d1) as [f|e]; [|reflexivity].
  destruct (py_getitem f "id"); reflexivity.
Qed.

Lemma choose_model_wire gw self model log :
  snd (choose_model gw self model log) = log ++ model_query self model.
Proof.
  unfold choose_model, model_query.
  destruct (truthy model); simpl.
  - rewrite app_nil_r. reflexivity.
  - apply resolve_default_model_wire.
Qed.

Lemma choose_model_given gw self model log :
  truthy model = true ->
  choose_model gw self model log = (Ok model, log).
Proof. unfold choose_model. intros ->. reflexivity. Qed.

Lemma model_query_short self model :
  (List.length (model_query self model) <= 1)%nat.
Proof. unfold model_query. destruct (truthy model); simpl; lia. Qed.

Lemma chat_completion_wire gw self messages model temperature max_tokens
      log id log1 :
  choose_model gw self model log = (Ok id, log1) ->
  snd (chat_completion gw self messages model temperature max_tokens log)
  = log1 ++ [chat_request self id messages temperature max_tokens].
Proof.
  intros Hmodel.
  unfold chat_completion, try_except, bind. rewrite Hmodel.
  unfold send.
  destruct (gw log1 _) as [|e|resp]; try reflexivity.
  unfold raise_for_status.
  destruct (is_success resp); [|reflexivity].
  unfold ret, pure, lift.
  destruct (body resp) as [result|e]; [|reflexivity].
  destruct (first_choice result "message" (JObj [])); [|reflexivity].
  destruct (py_get result "usage" (JObj [])); [|reflexivity].
  destruct (first_choice result "finish_reason" (JStr "")); reflexivity.
Qed.

Lemma generate_text_stops gw self prompt model max_tokens temperature
      log e log1 :
  choose_model gw self model log = (Raise e, log1) ->
  snd (generate_text gw self prompt model max_tokens temperature log) = log1.
Proof.
  intros H. unfold generate_text, try_except, bind. rewrite H.
  destruct e; reflexivity.
Qed.

Lemma chat_completion_stops gw self messages model temperature max_tokens
      log e log1 :
  choose_model gw self model log = (Raise e, log1) ->
  snd (chat_completion gw self messages model temperature max_tokens log)
  = log1.
Proof.
  intros H. unfold chat_completion, try_except, bind. rewrite H.
  destruct e; reflexivity.
Qed.

(** X13: Neither completion call retries: it adds at most two requests to the
    wire, the model query and the completion; given a model, it sends the
    completion request alone, carrying that model. *)
Theorem completions_send_at_most_two_requests :
  forall (gw : gateway) (self : t) (a model b c : json) (log : wire),
    (exists sent,
        snd (generate_text gw self a model b c log) = log ++ sent /\
        (List.length sent <= 2)%nat /\
        (truthy model = true ->
         sent = [completion_request self model a b c])) /\
    (exists sent,
        snd (chat_completion gw self a model b c log) = log ++ sent /\
        (List.length sent <= 2)%nat /\
        (truthy model = true ->
         sent = [chat_request self model a b c])).
Proof.
  intros gw self a model b c log.
  pose proof (choose_model_wire gw self model log) as Hwire.
  pose proof (model_query_short self model) as Hshort.
  destruct (choose_model gw self model log) as [[id|e] log1] eqn:Hchoose;
    simpl in Hwire; subst log1.
  - split.
    + exists (model_query self model ++ [completion_request self id a b c]).
      rewrite (LMStudioFacts.generate_text_wire _ _ _ _ _ _ _ _ _ Hchoose).
      rewrite <- app_assoc. split; [reflexivity|]. split.
      * rewrite length_app. simpl. lia.
      * intros Htrue. rewrite (choose_model_given _ _ _ _ Htrue) in Hchoose.
        injection Hchoose as <- Hlog. unfold model_query. rewrite Htrue.
        reflexivity.
    + exists (model_query self model ++ [chat_request self id a b c]).
      rewrite (chat_completion_wire _ _ _ _ _ _ _ _ _ Hchoose).
      rewrite <- app_assoc. split; [reflexivity|]. split.
      * rewrite length_app. simpl. lia.
      * intros Htrue. rewrite (choose_model_given _ _ _ _ Htrue) in Hchoose.
        injection Hchoose as <- Hlog. unfold model_query. rewrite Htrue.
        reflexivity.
  - split; exists (model_query self model).
    + rewrite (generate_text_stops _ _ _ _ _ _ _ _ _ Hchoose).
      split; [reflexivity|]. split; [lia|].
      intros Htrue. rewrite (choose_model_given _ _ _ _ Htrue) in Hchoose.
      discriminate Hchoose.
    + rewrite (chat_completion_stops _ _ _ _ _ _ _ _ _ Hchoose).
      split; [reflexivity|]. split; [lia|].
      intros Htrue. rewrite (choose_model_given _ _ _ _ Htrue) in Hchoose.
      discriminate Hchoose.
Qed.

Lemma completions_send_at_most_two_requests_witness :
  exists sent,
    snd (chat_completion (Scenario.serving ["m1"]) Scenario.local_adapter
           (JArr [JObj [("role", JStr "user"); ("content", JStr "hi")]])
           (JStr "m9") (JFloat (7 # 10)) (JInt 500) [])
    = [] ++ sent /\
    sent = [chat_request Scenario.local_adapter (JStr "m9")
              (JArr [JObj [("role", JStr "user"); ("content", JStr "hi")]])
              (JFloat (7 # 10)) (JInt 500)].
Proof.
  destruct (proj2 (completions_send_at_most_two_requests
                     (Scenario.serving ["m1"]) Scenario.local_adapter
                     (JArr [JObj [("role", JStr "user");
                                  ("content", JStr "hi")]])
                     (JStr "m9") (JFloat (7 # 10)) (JInt 500) []))
    as [sent [Hsent [_ Hgiven]]].
  exists sent. split; [exact Hsent | apply Hgiven; reflexivity].
Defined.

(** *** Failures of the completion calls *)

Ltac run_completion Hmodel Hgw :=
  unfold generate_text, chat_completion, try_except, bind;
  rewrite (choose_model_given _ _ _ _ Hmodel);
  unfold send; unfold completion_request, chat_request in *;
  rewrite Hgw.



(** *** What [generate_text] makes of an answer *)

(** X15: On a 2xx answer that is a JSON object, [generate_text] reads the first
    choice: its text and finish reason, empty when absent, and also when
    the answer has no [choices] at all; an empty [choices] list makes the
    call raise [IndexError]. *)
Theorem generate_text_reads_first_choice :
  forall (gw : gateway) (self : t) (a model b c : json) (log : wire)
         (resp : response) (result : dict),
    truthy model = true ->
    gw log (completion_request self model a b c) = Responds resp ->
    is_success resp = true ->
    body resp = Ok (JObj result) ->
    (forall choice rest,
        lookup result "choices" = Some (JArr (JObj choice :: rest)) ->
        fst (generate_text gw self a model b c log)
        = Ok (generated model choice result)) /\
    (lookup result "choices" = None ->
     fst (generate_text gw self a model b c log)
     = Ok (generated model [] result)) /\
    (lookup result "choices" = Some (JArr []) ->
     fst (generate_text gw self a model b c log)
     = Raise (mk_exn "IndexError" "list index out of range")).
Proof.
  intros gw self a model b c log resp result Hmodel Hgw Hok Hbody.
  repeat split.
  - intros choice rest Hchoices. run_completion Hmodel Hgw.
    unfold raise_for_status. rewrite Hok.
    unfold ret, pure, lift. rewrite Hbody.
    unfold first_choice. simpl. unfold get. rewrite Hchoices. reflexivity.
  - intros Hchoices. run_completion Hmodel Hgw.
    unfold raise_for_status. rewrite Hok.
    unfold ret, pure, lift. rewrite Hbody.
    unfold first_choice. simpl. unfold get. rewrite Hchoices. reflexivity.
  - intros Hchoices. run_completion Hmodel Hgw.
    unfold raise_for_status. rewrite Hok.
    unfold ret, pure, lift. rewrite Hbody.
    unfold first_choice. simpl. unfold get. rewrite Hchoices. reflexivity.
Qed.

Lemma generate_text_reads_first_choice_witness :
  fst (generate_text (Scenario.serving ["m1"]) Scenario.local_adapter
         (JStr "Hello") (JStr "m1") (JInt 100) (JFloat (7 # 10)) [])
  = Ok (JObj [("text", JStr "done"); ("model", JStr "m1");
              ("usage", JObj [("total_tokens", JInt 7)]);
              ("finish_reason", JStr "stop")]).
Proof.
  apply (proj1 (generate_text_reads_first_choice (Scenario.serving ["m1"])
                  Scenario.local_adapter (JStr "Hello") (JStr "m1")
                  (JInt 100) (JFloat (7 # 10)) [] _
                  [("choices",
                    JArr [JObj [("text", JStr "done");
                                ("finish_reason", JStr "stop")]]);
                   ("usage", JObj [("total_tokens", JInt 7)])]
                  eq_refl eq_refl eq_refl eq_refl)
               [("text", JStr "done"); ("finish_reason", JStr "stop")] []).
  reflexivity.
Defined.

(** *** Listing the models *)



End AdapterFacts.

Module EnvelopeFacts.
Import Py Server.

Section Shape.

Context {W : Type}.
Variable B : Backends W.
Variable py_str : json -> string.
Variable json_dumps : json -> string.

Local Abbreviation call_tool := (call_tool B py_str json_dumps).
Local Abbreviation call_tool_body := (call_tool_body B py_str json_dumps).

Ltac split_body H :=
  repeat match type of H with
         | context [match ?x with _ => _ end] =>
             destruct x eqn:?; try discriminate H
         end.

(** Where the [try] block goes for a name, once the subscripts succeed. *)
Lemma body_read_file self arguments path w :
  lookup arguments "path" = Some path ->
  call_tool_body self "read_file" arguments w
  = bind (be_read_file B path) (fun result => ret [text_entry result]) w.
Proof.
  intros Hp. unfold Server.call_tool_body, bind, pure, lift, getitem.
  simpl. rewrite Hp. reflexivity.
Qed.

Lemma body_write_file self arguments path content w :
  lookup arguments "path" = Some path ->
  lookup arguments "content" = Some content ->
  call_tool_body self "write_file" arguments w
  = bind (be_write_file B path content)
         (fun result =>
            ret [text_entry ("File written successfully: " ++ result)]) w.
Proof.
  intros Hp Hc. unfold Server.call_tool_body, bind, pure, lift, getitem.
  simpl. rewrite Hp, Hc. reflexivity.
Qed.

Lemma body_generate self lm arguments w :
  lm_studio self = Some lm ->
  call_tool_body self "lm_studio_generate" arguments w
  = generate_branch B py_str lm arguments w.
Proof.
  intros Hlm. unfold Server.call_tool_body, lm_guard. simpl.
  rewrite Hlm. reflexivity.
Qed.

Lemma body_chat self lm arguments w :
  lm_studio self = Some lm ->
  call_tool_body self "lm_studio_chat" arguments w
  = chat_branch B py_str lm arguments w.
Proof.
  intros Hlm. unfold Server.call_tool_body, lm_guard. simpl.
  rewrite Hlm. reflexivity.
Qed.

(** Every branch of the [try] block ends in a list of one text entry. *)
Lemma body_returns_one_text self n arguments w env w' :
  call_tool_body self n arguments w = (Ok env, w') ->
  exists t, env = [text_entry t].
Proof.
  unfold Server.call_tool_body, generate_branch, chat_branch,
    list_models_branch, test_connection_branch, bind, pure, lift, ret,
    raise.
  intros H. split_body H; inversion H; eauto.
Qed.

(** X17: Whatever the tool, the bag and the backends, the envelope of
    [call_tool] has exactly one entry: a text without the [isError] key, or
    an error whose text starts with "Error: ". *)
Theorem call_tool_envelope_has_one_entry :
  forall (self : Server.t) (n : string) (arguments : dict) (w w' : W)
         (env : envelope),
    call_tool self n arguments w = (Ok env, w') ->
    exists e,
      env = [e] /\
      (isError e = None \/
       (isError e = Some true /\ is_prefix "Error: " (text e) = true)).
Proof.
  intros self n arguments w w' env. unfold Server.call_tool, try_except.
  destruct (call_tool_body self n arguments w) as [[env0|e] w0] eqn:Hbody.
  - intros [= <- <-].
    destruct (body_returns_one_text _ _ _ _ _ _ Hbody) as [t ->].
    exists (text_entry t). split; [reflexivity | left; reflexivity].
  - unfold ret. intros [= <- <-].
    exists (error_entry ("Error: " ++ exn_str e)).
    split; [reflexivity | right; split; reflexivity].
Qed.

End Shape.

Lemma call_tool_envelope_has_one_entry_witness :
  exists e,
    [text_entry "hello"] = [e] /\
    (isError e = None \/
     (isError e = Some true /\ is_prefix "Error: " (text e) = true)).
Proof.
  apply (call_tool_envelope_has_one_entry
           (Backend.with_files Scenario.app_root Scenario.quiet)
           Backend.show Backend.show Scenario.read_only
           "read_file" [("path", JStr "readme.txt")]
           (Scenario.disk, []) (Scenario.disk, [])).
  reflexivity.
Defined.

(** *** What is listed *)

Lemma append_if_enabled_filter self enabled tool acc :
  (forall tool_name, _is_tool_enabled self tool_name
                     = Ok (enabled tool_name)) ->
  existsb (String.eqb (name tool)) lm_studio_names = false ->
  append_if_enabled self tool acc
  = Ok (acc ++ filter (listed self enabled) [tool]).
Proof.
  intros Hen Hplain. unfold append_if_enabled, listed, with_adapter.
  cbn [filter]. rewrite Hen, Hplain. simpl. rewrite andb_true_r.
  destruct (enabled (name tool)); [reflexivity|].
  rewrite app_nil_r. reflexivity.
Qed.

Lemma append_if_lm_enabled_filter self enabled tool acc :
  (forall tool_name, _is_tool_enabled self tool_name
                     = Ok (enabled tool_name)) ->
  existsb (String.eqb (name tool)) lm_studio_names = true ->
  append_if_lm_enabled self tool acc
  = Ok (acc ++ filter (listed self enabled) [tool]).
Proof.
  intros Hen Hlm.
  unfold append_if_lm_enabled, append_if_enabled, listed, with_adapter.
  cbn [filter]. rewrite Hlm. simpl. destruct (lm_studio self).
  - rewrite Hen. simpl. rewrite andb_true_r.
    destruct (enabled (name tool)); [reflexivity|].
    rewrite app_nil_r. reflexivity.
  - rewrite andb_false_r. rewrite app_nil_r. reflexivity.
Qed.

(** X18: [list_tools] is the catalog, in its order, cut down to the names the
    configuration enables, the [lm_studio_*] ones only with an adapter. *)
Theorem list_tools_is_filtered_catalog :
  forall (self : Server.t) (enabled : string -> bool),
    (forall tool_name, _is_tool_enabled self tool_name
                       = Ok (enabled tool_name)) ->
    list_tools self = Ok (filter (listed self enabled) catalog).
Proof.
  intros self enabled Hen. unfold list_tools.
  repeat (rewrite (append_if_enabled_filter self enabled)
            by (exact Hen || reflexivity);
          cbn [rbind]).
  repeat (rewrite (append_if_lm_enabled_filter self enabled)
            by (exact Hen || reflexivity);
          cbn [rbind]).
  rewrite app_nil_l, <- !filter_app. reflexivity.
Qed.

Lemma list_tools_is_filtered_catalog_witness :
  list_tools Scenario.files_only
  = Ok (filter (listed Scenario.files_only
                  (fun n => existsb (String.eqb n)
                              ["read_file"; "write_file"]))
               catalog).
Proof.
  apply (list_tools_is_filtered_catalog Scenario.files_only
           (fun n => existsb (String.eqb n) ["read_file"; "write_file"])).
  intros tool_name. unfold _is_tool_enabled. simpl.
  rewrite !orb_false_r. reflexivity.
Defined.

(** X19: [list_tools] has no handler of its own: an [enabled] entry that is not
    a list, a dict or a str makes it raise [TypeError], and a [tools] entry
    that is not a dict makes it raise [AttributeError]. *)
Theorem list_tools_raises_on_malformed_tools :
  forall (self : Server.t) (cfg : dict) (tools : json),
    config self = JObj cfg ->
    lookup cfg "tools" = Some tools ->
    (forall tools_cfg v,
        tools = JObj tools_cfg ->
        lookup tools_cfg "enabled" = Some v ->
        not_container v = true ->
        list_tools self
        = Raise (TypeError ("argument of type '" ++ type_name v
                            ++ "' is not iterable"))) /\
    ((forall d, tools <> JObj d) ->
     list_tools self
     = Raise (AttributeError ("'" ++ type_name tools
                              ++ "' object has no attribute 'get'"))).
Proof.
  intros self cfg tools Hcfg Htools. split.
  - intros tools_cfg v -> Hv Hbad.
    unfold list_tools, append_if_enabled, _is_tool_enabled.
    rewrite Hcfg. simpl. unfold get. rewrite Htools. simpl.
    unfold get. rewrite Hv.
    destruct v; try discriminate Hbad; reflexivity.
  - intros Hnot.
    unfold list_tools, append_if_enabled, _is_tool_enabled.
    rewrite Hcfg. simpl. unfold get. rewrite Htools.
    destruct tools; try reflexivity. exfalso. exact (Hnot _ eq_refl).
Qed.

Lemma list_tools_raises_on_malformed_tools_witness :
  list_tools {| config := JObj [("tools", JObj [("enabled", JNull)])];
                lm_studio := None |}
  = Raise (TypeError "argument of type 'NoneType' is not iterable").
Proof.
  apply (proj1 (list_tools_raises_on_malformed_tools
                  {| config := JObj [("tools", JObj [("enabled", JNull)])];
                     lm_studio := None |}
                  [("tools", JObj [("enabled", JNull)])]
                  (JObj [("enabled", JNull)]) eq_refl eq_refl)
               [("enabled", JNull)] JNull); reflexivity.
Defined.

(** *** Through the dispatcher to the tools *)

Section EndToEnd.

Context {W : Type}.
Variable B : Backends W.
Variable py_str : json -> string.
Variable json_dumps : json -> string.

(** X20: A file written through [call_tool] is read back through [call_tool]:
    the write answers with the success text, and the read that follows
    answers with the content written, its [\r\n] and [\r] turned into [\n];
    content without a carriage return comes back exactly as written. *)
Theorem call_tool_write_then_read :
  forall (self : Server.t) (ft : FileTools.t) (p text msg : string)
         (fs fs' : FileTools.filesystem) (w : W),
    FileTools.well_formed fs = true ->
    FileTools.write_file ft (JStr p) (JStr text) fs = (Ok msg, fs') ->
    call_tool (Backend.with_files ft B) py_str json_dumps self "write_file"
      [("path", JStr p); ("content", JStr text)] (fs, w)
    = (Ok [text_entry ("File written successfully: " ++ msg)], (fs', w)) /\
    call_tool (Backend.with_files ft B) py_str json_dumps self "read_file"
      [("path", JStr p)] (fs', w)
    = (Ok [text_entry (FileTools.universal_newlines text)], (fs', w)) /\
    (FileTools.cr_free text = true ->
     call_tool (Backend.with_files ft B) py_str json_dumps self "read_file"
       [("path", JStr p)] (fs', w)
     = (Ok [text_entry text], (fs', w))).
Proof.
  intros self ft p text msg fs fs' w Hwf Hwrite.
  destruct (FileSystemFacts.read_after_write _ _ _ _ _ _ Hwf Hwrite)
    as [Hread _].
  assert (Hcall :
    call_tool (Backend.with_files ft B) py_str json_dumps self "read_file"
      [("path", JStr p)] (fs', w)
    = (Ok [text_entry (FileTools.universal_newlines text)], (fs', w))).
  { unfold call_tool, try_except.
    rewrite (body_read_file _ py_str json_dumps self _ (JStr p))
      by reflexivity.
    unfold bind, Backend.with_files. cbn [be_read_file fst snd].
    rewrite Hread. reflexivity. }
  split; [|split].
  - unfold call_tool, try_except.
    rewrite (body_write_file _ py_str json_dumps self _ (JStr p) (JStr text))
      by reflexivity.
    unfold bind, Backend.with_files. cbn [be_write_file fst snd].
    rewrite Hwrite. reflexivity.
  - exact Hcall.
  - intros Hfree. rewrite Hcall.
    rewrite (FileSystemFacts.universal_newlines_cr_free _ Hfree).
    reflexivity.
Qed.

(** X21: With only a prompt and a model in the bag, [lm_studio_generate] sends
    one completion request with [max_tokens = 100] and
    [temperature = 0.7]; with only messages and a model, [lm_studio_chat]
    sends one with [temperature = 0.7] and [max_tokens = 500]. *)
Theorem call_tool_fills_in_defaults :
  forall (gw : LMStudioTools.gateway) (self : Server.t)
         (lm : LMStudioTools.t) (x model : json)
         (log : LMStudioTools.wire) (w : W),
    lm_studio self = Some lm ->
    truthy model = true ->
    snd (call_tool (Backend.with_gateway gw B) py_str json_dumps self
           "lm_studio_generate" [("prompt", x); ("model", model)] (log, w))
    = (log ++ [LMStudioTools.completion_request lm model x
                 (JInt 100) (JFloat (7 # 10))], w) /\
    snd (call_tool (Backend.with_gateway gw B) py_str json_dumps self
           "lm_studio_chat" [("messages", x); ("model", model)] (log, w))
    = (log ++ [LMStudioTools.chat_request lm model x
                 (JFloat (7 # 10)) (JInt 500)], w).
Proof.
  intros gw self lm x model log w Hlm Hmodel.
  pose proof (AdapterFacts.choose_model_given gw lm model log Hmodel)
    as Hchoose.
  pose proof (LMStudioFacts.generate_text_wire gw lm x model (JInt 100)
                (JFloat (7 # 10)) log model log Hchoose) as Hgen.
  pose proof (AdapterFacts.chat_completion_wire gw lm x model
                (JFloat (7 # 10)) (JInt 500) log model log Hchoose) as Hchat.
  split.
  - unfold call_tool, try_except.
    rewrite (body_generate _ py_str json_dumps self lm) by exact Hlm.
    unfold generate_branch, bind, pure, lift, ret, getitem, get,
      Backend.with_gateway, Backend.on_wire.
    cbn [be_generate_text fst snd lookup String.eqb Ascii.eqb Bool.eqb].
    destruct (LMStudioTools.generate_text gw lm x model (JInt 100)
                (JFloat (7 # 10)) log) as [[result|e] log'];
      simpl in Hgen; subst log'; [|reflexivity].
    destruct (py_getitem result "text"); [|reflexivity].
    destruct (py_getitem result "model"); [|reflexivity].
    destruct (py_get result "usage" (JObj [])) as [usage|]; [|reflexivity].
    destruct (py_get usage "total_tokens" (JStr "N/A")); reflexivity.
  - unfold call_tool, try_except.
    rewrite (body_chat _ py_str json_dumps self lm) by exact Hlm.
    unfold chat_branch, bind, pure, lift, ret, getitem, get,
      Backend.with_gateway, Backend.on_wire.
    cbn [be_chat_completion fst snd lookup String.eqb Ascii.eqb Bool.eqb].
    destruct (LMStudioTools.chat_completion gw lm x model
                (JFloat (7 # 10)) (JInt 500) log) as [[result|e] log'];
      simpl in Hchat; subst log'; [|reflexivity].
    destruct (py_get result "message" (JObj [])) as [message|];
      [|reflexivity].
    destruct (py_get message "content" (JStr "")); [|reflexivity].
    destruct (py_get result "model" (JStr "N/A")); reflexivity.
Qed.

End EndToEnd.

Lemma call_tool_write_then_read_witness :
  call_tool (Backend.with_files Scenario.app_root Scenario.quiet)
    Backend.show Backend.show Scenario.read_only "read_file"
    [("path", JStr "notes/today.txt")]
    (snd (FileTools.write_file Scenario.app_root (JStr "notes/today.txt")
            (JStr "buy milk") Scenario.disk), [])
  = (Ok [text_entry "buy milk"],
     (snd (FileTools.write_file Scenario.app_root (JStr "notes/today.txt")
             (JStr "buy milk") Scenario.disk), [])).
Proof.
  apply (proj2 (proj2 (call_tool_write_then_read Scenario.quiet Backend.show
                  Backend.show Scenario.read_only Scenario.app_root
                  "notes/today.txt" "buy milk"
                  "Successfully wrote to notes/today.txt"
                  Scenario.disk _ [] eq_refl eq_refl))).
  reflexivity.
Defined.

Lemma call_tool_fills_in_defaults_witness :
  snd (call_tool (Backend.with_gateway (Scenario.serving ["m1"])
                    Scenario.quiet)
         Backend.show Backend.show Scenario.with_inference
         "lm_studio_generate"
         [("prompt", JStr "Hello"); ("model", JStr "m1")] ([], []))
  = ([LMStudioTools.completion_request Scenario.local_adapter (JStr "m1")
        (JStr "Hello") (JInt 100) (JFloat (7 # 10))], []).
Proof.
  apply (proj1 (call_tool_fills_in_defaults Scenario.quiet Backend.show
                  Backend.show (Scenario.serving ["m1"])
                  Scenario.with_inference Scenario.local_adapter
                  (JStr "Hello") (JStr "m1") [] [] eq_refl eq_refl)).
Defined.

End EnvelopeFacts.

Module ValidationFacts.
Import Py Helpers Server.

Lemma check_required_names fields arguments :
  check_required (map JStr fields) arguments
  = Ok (forallb (has_key arguments) fields).
Proof.
  induction fields as [|f fields IH]; simpl; [reflexivity|].
  destruct (has_key arguments f); simpl; [exact IH | reflexivity].
Qed.

(** X24: When the list of required names does sit where the helper looks, under
    [properties], [validate_tool_input] says whether the bag holds every
    one of them. *)
Theorem validate_tool_input_checks_nested_required :
  forall (tool_name : string) (arguments schema props : dict)
         (fields : list string),
    lookup schema "properties" = Some (JObj props) ->
    lookup props "required" = Some (strs fields) ->
    validate_tool_input tool_name arguments schema
    = Ok (forallb (has_key arguments) fields).
Proof.
  intros tool_name arguments schema props fields Hprops Hreq.
  unfold validate_tool_input, get. rewrite Hprops. simpl.
  unfold get. rewrite Hreq. simpl. apply check_required_names.
Qed.

Lemma validate_tool_input_checks_nested_required_witness :
  validate_tool_input "write_file" [("path", JStr "a.txt")]
    [("type", JStr "object");
     ("properties", JObj [("required", strs ["path"; "content"])])]
  = Ok false.
Proof.
  apply (validate_tool_input_checks_nested_required "write_file"
           [("path", JStr "a.txt")]
           [("type", JStr "object");
            ("properties", JObj [("required", strs ["path"; "content"])])]
           [("required", strs ["path"; "content"])]
           ["path"; "content"]); reflexivity.
Defined.

End ValidationFacts.

Module ApiFacts.
Import Py APITools.

Lemma has_key_false_fresh (d : dict) k :
  has_key d k = false -> ~ In k (map fst d).
Proof.
  unfold has_key. induction d as [|[k' v] d IH]; simpl; [tauto|].
  destruct (String.eqb k' k) eqn:E; [discriminate|].
  intros H [Heq | Hin].
  - apply String.eqb_neq in E. contradiction.
  - exact (IH H Hin).
Qed.

Lemma setitem_fresh (d : dict) k v :
  ~ In k (map fst d) -> setitem d k v = d ++ [(k, v)].
Proof.
  induction d as [|[k' v'] d IH]; simpl; intros Hfresh; [reflexivity|].
  destruct (String.eqb k' k) eqn:E.
  - apply String.eqb_eq in E. tauto.
  - rewrite IH by tauto. reflexivity.
Qed.

(** X25: For a method given as an ASCII str and headers given as a dict,
    [call_api] upper-cases the method, keeps the caller's headers in their
    order, adds
    [Content-Type: application/json] at the end only when there is a body
    to send and the caller set none, and sends a body that is a str as
    [content], any other as [json], and a body that is [None], empty or
    zero not at all. *)
Theorem call_api_builds_request :
  forall (self : t) (url body : json) (method : string) (d : dict),
    ascii_only method = true ->
    prepare self url (JStr method) (JObj d) body
    = Ok {| rq_method := upper method;
            rq_url := url;
            rq_headers := JObj (sent_headers d body);
            rq_content := sent_content body;
            rq_json := sent_json body;
            rq_timeout := timeout self |}.
Proof.
  intros self url body method d _.
  unfold prepare, sent_headers, sent_content, sent_json.
  assert (Hheaders : (if truthy (JObj d) then JObj d else JObj []) = JObj d)
    by (destruct d; reflexivity).
  rewrite Hheaders. cbn [py_in rbind].
  destruct (has_key d content_type) eqn:Hct; cbn [negb andb orb].
  - reflexivity.
  - destruct (truthy body) eqn:Hbody; cbn [negb rbind set_content_type].
    + rewrite setitem_fresh by (apply has_key_false_fresh, Hct).
      reflexivity.
    + reflexivity.
Qed.

Lemma call_api_builds_request_witness :
  prepare default (JStr "http://example.test/items") (JStr "post")
    (JObj [("Accept", JStr "text/plain")]) (JObj [("n", JInt 1)])
  = Ok {| rq_method := "POST";
          rq_url := JStr "http://example.test/items";
          rq_headers := JObj [("Accept", JStr "text/plain");
                              ("Content-Type", JStr "application/json")];
          rq_content := None;
          rq_json := Some (JObj [("n", JInt 1)]);
          rq_timeout := 30 |}.
Proof.
  exact (call_api_builds_request default (JStr "http://example.test/items")
           (JObj [("n", JInt 1)]) "post" [("Accept", JStr "text/plain")]
           eq_refl).
Defined.

(** *** Through the dispatcher *)

Section Dispatched.

Import Server.

Context {W : Type}.
Variable B : Backends W.
Variable py_str : json -> string.
Variable json_dumps : json -> string.
Variable net : network.

Local Abbreviation call_tool :=
  (call_tool (Backend.with_network py_str net B) py_str json_dumps).

Lemma body_call_api_bare self url log w :
  call_tool_body (Backend.with_network py_str net B) py_str json_dumps
    self "call_api" [("url", url)] (log, w)
  = bind (Backend.on_network
            (call_api py_str net default url (JStr "GET") (JObj []) JNull))
         (fun result => ret [text_entry (json_dumps result)]) (log, w).
Proof. reflexivity. Qed.

Lemma prepare_bare url :
  prepare default url (JStr "GET") (JObj []) JNull
  = Ok (plain_get default url).
Proof. reflexivity. Qed.

(** X26: Called with a URL and nothing else, [call_api] sends a [GET] without
    headers or body, with the 30 second timeout.  Whatever status the
    answer carries, 4xx and 5xx included, the envelope is the plain text
    entry holding the dumped result; only a timeout or a failed request
    gives an error entry. *)
Theorem call_api_reports_any_status_as_success :
  forall (self : Server.t) (url : json) (log : wire) (w : W),
    (forall r,
        net log (plain_get default url) = Responds r ->
        call_tool self "call_api" [("url", url)] (log, w)
        = (Ok [text_entry (json_dumps (result_of r))],
           (log ++ [plain_get default url], w))) /\
    (net log (plain_get default url) = TimesOut ->
     call_tool self "call_api" [("url", url)] (log, w)
     = (Ok [error_entry ("Error: Request to " ++ py_str url ++ " timed out")],
        (log ++ [plain_get default url], w))) /\
    (forall msg,
        net log (plain_get default url) = RequestFails msg ->
        call_tool self "call_api" [("url", url)] (log, w)
        = (Ok [error_entry ("Error: Request failed: " ++ msg)],
           (log ++ [plain_get default url], w))).
Proof.
  intros self url log w.
  repeat split; intros;
    unfold Server.call_tool, try_except;
    rewrite body_call_api_bare;
    unfold bind, Backend.on_network, call_api;
    rewrite prepare_bare; cbn [fst snd];
    match goal with H : net _ _ = _ |- _ => rewrite H end;
    reflexivity.
Qed.

End Dispatched.

Lemma call_api_reports_any_status_as_success_witness :
  Server.call_tool
    (Backend.with_network Backend.show Scenario.failing_upstream
       Scenario.quiet)
    Backend.show Backend.show Scenario.api_only "call_api"
    [("url", JStr "http://example.test/")] ([], [])
  = (Ok [Server.text_entry
           (Backend.show
              (JObj [("status_code", JInt 500);
                     ("headers", JObj [("content-type", JStr "text/plain")]);
                     ("data", JStr "Internal Server Error")]))],
     ([plain_get default (JStr "http://example.test/")], [])).
Proof.
  apply (proj1 (call_api_reports_any_status_as_success Scenario.quiet
                  Backend.show Backend.show Scenario.failing_upstream
                  Scenario.api_only (JStr "http://example.test/") [] [])
               {| status_code := 500;
                  headers := [("content-type", JStr "text/plain")];
                  text := "Internal Server Error";
                  body := None |}).
  reflexivity.
Defined.

End ApiFacts.

Module ResourceFacts.
Import Py Server.

Lemma replace_absent old new s :
  contains old s = false -> replace_from 0 old new s = s.
Proof.
  induction s as [|c s IH]; intros H; [reflexivity|].
  cbn [contains] in H. apply orb_false_elim in H. destruct H as [Hpre Hrest].
  cbn [replace_from]. rewrite Hpre, (IH Hrest). reflexivity.
Qed.

Lemma replace_skip old new a : forall s,
  replace_from (String.length a) old new (a ++ s) = replace_from 0 old new s.
Proof.
  induction a as [|c a IH]; intros s; [reflexivity|].
  simpl. apply IH.
Qed.

Lemma strip_scheme p :
  contains "file://" p = false ->
  replace "file://" "" ("file://" ++ p) = p.
Proof.
  intros H. unfold replace.
  change ("file://" ++ p)%string with (String "f" ("ile://" ++ p)).
  cbn [replace_from].
  change (String "f" ("ile://" ++ p)) with ("file://" ++ p)%string.
  rewrite ContainmentFacts.is_prefix_app.
  change (String.length "file://" - 1)%nat with (String.length "ile://").
  rewrite replace_skip, (replace_absent _ _ _ H). reflexivity.
Qed.

Lemma read_resource_reads_through_file_tools_core {W : Type}
      (B : Backends W) :
  (forall (p : string) (w : W),
      contains "file://" p = false ->
      read_resource B ("file://" ++ p) w = be_read_file B (JStr p) w) /\
  (forall (uri : string) (w : W),
      startswith uri "file://" = false ->
      read_resource B uri w
      = (Raise (ValueError ("Unsupported resource URI: " ++ uri)), w)).
Proof.
  split.
  - intros p w Hp. unfold read_resource, startswith.
    rewrite ContainmentFacts.is_prefix_app, (strip_scheme p Hp).
    reflexivity.
  - intros uri w Hscheme. unfold read_resource. rewrite Hscheme.
    reflexivity.
Qed.

Section Reading.

Context {W : Type}.
Variable B : Backends W.

(** X27: [read_resource] reads a [file://] URI through the file backend at the
    path that follows the scheme, whatever the configuration says about
    resources; any other URI raises "Unsupported resource URI" and leaves
    the backend alone. *)
Theorem read_resource_reads_through_file_tools :
  (forall (p : string) (w : W),
      contains "file://" p = false ->
      read_resource B ("file://" ++ p) w = be_read_file B (JStr p) w) /\
  (forall (uri : string) (w : W),
      startswith uri "file://" = false ->
      read_resource B uri w
      = (Raise (ValueError ("Unsupported resource URI: " ++ uri)), w)).
Proof. exact (read_resource_reads_through_file_tools_core B). Qed.

Variable py_str : json -> string.


End Reading.

Lemma read_resource_reads_through_file_tools_witness :
  read_resource (Backend.with_files Scenario.app_root Scenario.quiet)
    "file://readme.txt" (Scenario.disk, [])
  = (Ok "hello", (Scenario.disk, [])).
Proof.
  apply (proj1 (read_resource_reads_through_file_tools
                  (Backend.with_files Scenario.app_root Scenario.quiet))
               "readme.txt" (Scenario.disk, [])).
  reflexivity.
Defined.


(** Every occurrence of the scheme is removed, not only the leading one. *)
Example read_resource_strips_every_scheme :
  replace "file://" "" "file://notes/file://today.txt" = "notes/today.txt".
Proof. reflexivity. Qed.

End ResourceFacts.
